(** * control-pulseoptim-symplectic: the notebook as a Rocq program

    The repository is one Jupyter notebook,
    [examples/control-pulseoptim-symplectic.ipynb].  It builds the generators of
    a symplectic two-oscillator system, calls QuTiP's [optimize_pulse] and
    reports and plots what comes back.

    The development follows the notebook cell by cell.

    - Names bound to literals or to pure expressions (cells 2 to 7) are
      Rocq constants that keep the notebook's names.
    - numpy's arrays, indexing, [dot] and [hstack], and Python's [range],
      [len] and [str.format] are written out as functions.
    - QuTiP and matplotlib are not part of the repository.  Their pure
      functions ([calc_omega], [expm], the text rendering of floats and
      operators) are the fields of the class [Library]; their effectful
      calls (the optimiser, reporting, plotting) are requests answered by
      an arbitrary [World], and may raise.
    - The cells that talk to the outside run in a state and exception
      monad over the kernel: the world, the log of requests, the files
      written and the names bound at run time. *)

From Stdlib Require Import ZArith Ascii String List Floats Lia.
From stdpp Require Import base option list strings pretty.

Open Scope Z_scope.
Open Scope string_scope.

(* ===================================================================== *)
(** ** numpy: two-dimensional arrays                                      *)
(* ===================================================================== *)

Module Numpy.

(** A Python number as it appears in an array literal. *)
Inductive pynum : Type :=
| PyInt (z : Z)
| PyFloat (f : float).

Coercion PyInt : Z >-> pynum.
Coercion PyFloat : float >-> pynum.

Inductive dtype : Type := int64 | float64.

(** Conversion of a Python int to binary64: the nearest float, ties to
    even, as Python and numpy convert.  It is exact up to magnitude 2^53. *)
Definition float_of_Z (z : Z) : float :=
  SF2Prim (binary_normalize prec emax z 0 false).

(** The integer a float holds, when it holds one. *)
Definition integer_value (f : float) : option Z :=
  match Prim2SF f with
  | S754_zero _ => Some 0%Z
  | S754_finite s m e =>
      let sign := if s then (-1)%Z else 1%Z in
      if (0 <=? e)%Z then Some (sign * (Z.pos m * 2 ^ e))%Z
      else if (Z.pos m mod 2 ^ (- e) =? 0)%Z
           then Some (sign * (Z.pos m / 2 ^ (- e)))%Z
           else None
  | _ => None
  end.

(** Whether binary64 holds the number exactly: always for a float, for
    an int when its float reads back as the same integer (every int up to
    magnitude 2^53 does). *)
Definition held_exactly (x : pynum) : bool :=
  match x with
  | PyInt z =>
      match integer_value (float_of_Z z) with
      | Some y => (y =? z)%Z
      | None => false
      end
  | PyFloat _ => true
  end.

Definition to_float (x : pynum) : float :=
  match x with
  | PyInt z => float_of_Z z
  | PyFloat f => f
  end.

Definition is_int (x : pynum) : bool :=
  match x with PyInt _ => true | PyFloat _ => false end.

(** A 2-D array: its element type, its shape and its row-major buffer.
    An integer array is kept through the binary64 values of its entries:
    that is what its consumers in the notebook, [Qobj] and [dot] with a
    float array, convert the entries to.  The value is the entry itself up
    to magnitude 2^53. *)
Record ndarray : Type := mk_ndarray {
  dtype_of : dtype;
  nrows : nat;
  ncols : nat;
  buf : list float
}.

Definition shape (a : ndarray) : nat * nat := (nrows a, ncols a).

(** The buffer holds exactly [nrows * ncols] entries. *)
Definition wf (a : ndarray) : Prop :=
  length (buf a) = (nrows a * ncols a)%nat.

(** [np.array(lit)] for a nested list [lit]: the result is an integer
    array when there is an entry and every entry is a Python int, a float
    array otherwise (so also for the literal without entries).  The model
    covers the literals numpy turns into a 2-D int64 or float64 array: numpy
    rejects a ragged literal, [rectangular] is that side condition, and it
    leaves int64 for integers outside [-2^63, 2^63), [in_int64] is that
    one. *)
Definition rectangular (lit : list (list pynum)) : bool :=
  forallb (fun r => Nat.eqb (length r) (length (hd [] lit))) lit.

Definition in_int64 (x : pynum) : bool :=
  match x with
  | PyInt z => (- 2 ^ 63 <=? z)%Z && (z <? 2 ^ 63)%Z
  | PyFloat _ => true
  end.

Definition has_entry (lit : list (list pynum)) : bool :=
  existsb (fun r => negb (Nat.eqb (length r) 0)) lit.

Definition np_array (lit : list (list pynum)) : ndarray :=
  {| dtype_of := if has_entry lit && forallb (forallb is_int) lit
                 then int64 else float64;
     nrows := length lit;
     ncols := length (hd [] lit);
     buf := concat (map (map to_float) lit) |}.

(** Python index normalisation on an axis of length [n]: [0 <= i < n]
    counts from the front, [-n <= i < 0] from the back, anything else is an
    IndexError ([None]). *)
Definition norm_index (n : nat) (i : Z) : option nat :=
  if (0 <=? i)%Z && (i <? Z.of_nat n)%Z then Some (Z.to_nat i)
  else if (- Z.of_nat n <=? i)%Z && (i <? 0)%Z then Some (Z.to_nat (Z.of_nat n + i))
  else None.

(** [a[i, j]] *)
Definition item (a : ndarray) (i j : Z) : option float :=
  i' ← norm_index (nrows a) i;
  j' ← norm_index (ncols a) j;
  buf a !! (i' * ncols a + j')%nat.

(** [a[:, j]]: the column as a 1-D array. *)
Definition column (a : ndarray) (j : Z) : option (list float) :=
  j' ← norm_index (ncols a) j;
  mapM (fun i => buf a !! (i * ncols a + j')%nat) (seq 0 (nrows a)).

(** [np.hstack((v, x))] for a 1-D array [v] and a scalar [x]: the scalar is
    promoted to a one-element array and the two are concatenated. *)
Definition hstack (v : list float) (x : float) : list float := v ++ [x].

(** Unchecked entry, for the operations below that are total on
    well-formed operands. *)
Definition entry (a : ndarray) (i j : nat) : float :=
  nth (i * ncols a + j) (buf a) 0%float.

Definition transpose (a : ndarray) : ndarray :=
  {| dtype_of := dtype_of a;
     nrows := ncols a;
     ncols := nrows a;
     buf := flat_map (fun i => map (fun j => entry a j i) (seq 0 (nrows a)))
                     (seq 0 (ncols a)) |}.

Definition fsum (l : list float) : float :=
  fold_left PrimFloat.add l 0%float.

Definition join_dtype (d e : dtype) : dtype :=
  match d, e with int64, int64 => int64 | _, _ => float64 end.

(** numpy raises ValueError unless the inner dimensions agree. *)
Definition dot_defined (a b : ndarray) : Prop := ncols a = nrows b.

(** [a.dot(b)], the matrix product.  It is the product whenever
    [dot_defined a b]; the notebook's only product meets that condition
    (see [omega_Ag_defined]). *)
Definition dot (a b : ndarray) : ndarray :=
  {| dtype_of := join_dtype (dtype_of a) (dtype_of b);
     nrows := nrows a;
     ncols := ncols b;
     buf := flat_map
              (fun i => map (fun j =>
                 fsum (map (fun k => PrimFloat.mul (entry a i k) (entry b k j))
                           (seq 0 (ncols a))))
                 (seq 0 (ncols b)))
              (seq 0 (nrows a)) |}.

(** The [n] x [n] identity. *)
Definition eye (n : nat) : ndarray :=
  {| dtype_of := float64;
     nrows := n;
     ncols := n;
     buf := flat_map (fun i => map (fun j => if Nat.eqb i j then 1%float else 0%float)
                                   (seq 0 n))
                     (seq 0 n) |}.

Definition square (a : ndarray) (n : nat) : Prop := wf a /\ shape a = (n, n).

Definition symmetric (a : ndarray) : Prop := transpose a = a.

End Numpy.
Import Numpy.

(* ===================================================================== *)
(** ** QuTiP: quantum objects                                             *)
(* ===================================================================== *)

(** A [Qobj]: its data and its [dims].  Every operator of the notebook is
    real, so the data is kept as a real array. *)
Record qobj : Type := mk_qobj {
  qdata : ndarray;
  qdims : list (list nat)
}.

(** [Qobj(a)] for an array [a]. *)
Definition Qobj (a : ndarray) : qobj :=
  {| qdata := a; qdims := [[nrows a]; [ncols a]] |}.

(** [identity(N)] *)
Definition identity (N : nat) : qobj :=
  {| qdata := eye N; qdims := [[N]; [N]] |}.

Definition qsquare (q : qobj) (n : nat) : Prop :=
  square (qdata q) n /\ qdims q = [[n]; [n]].

(* ===================================================================== *)
(** ** Python builtins: [len], [range], [str], [str.format]               *)
(* ===================================================================== *)

Definition len {A : Type} (l : list A) : Z := Z.of_nat (length l).

(** [range(n)]: [0, 1, ..., n-1], empty when [n <= 0]. *)
Definition range (n : Z) : list Z := map Z.of_nat (seq 0 (Z.to_nat n)).

(** The values the notebook hands to [str.format]. *)
Inductive pyval : Type :=
| VStr (s : string)
| VInt (z : Z)
| VFloat (f : float)
| VQobj (q : qobj)
| VTimedelta (seconds : float).

(** Opaque objects of the outside world: the logger, figures, axes, the
    statistics object. *)
Definition handle : Type := nat.

(** The pure part of the libraries the notebook imports.  None of it is in
    the repository, so it is a parameter of the development. *)
Class Library : Type := {
  (** [qutip.control.symplectic.calc_omega] *)
  calc_omega : nat -> ndarray;
  (** [Qobj.expm], the matrix exponential *)
  expm : qobj -> qobj;
  (** [qutip.logging_utils.INFO] and [get_logger()] *)
  logging_INFO : Z;
  get_logger : handle;
  (** [str] of a float, of a [Qobj] and of a [datetime.timedelta] *)
  repr_float : float -> string;
  str_qobj : qobj -> string;
  str_timedelta : float -> string
}.

Section Builtins.
Context `{Library}.

(** [str(v)] *)
Definition py_str (v : pyval) : string :=
  match v with
  | VStr s => s
  | VInt z => pretty z
  | VFloat f => repr_float f
  | VQobj q => str_qobj q
  | VTimedelta s => str_timedelta s
  end.

(** [template.format(args...)] with automatically numbered [{}] fields and
    the escapes [{{] and [}}].  [None] stands for the exceptions Python
    raises: IndexError when the arguments run out, ValueError on a lone
    brace.  Surplus arguments are ignored, as in Python. *)
Fixpoint format_checked (template : string) (args : list pyval) : option string :=
  match template with
  | EmptyString => Some EmptyString
  | String c rest =>
      if Ascii.eqb c "{"%char then
        match rest with
        | String d rest' =>
            if Ascii.eqb d "}"%char then
              match args with
              | v :: args' => s ← format_checked rest' args'; Some (py_str v ++ s)
              | [] => None
              end
            else if Ascii.eqb d "{"%char then
              s ← format_checked rest' args; Some (String "{"%char s)
            else None
        | EmptyString => None
        end
      else if Ascii.eqb c "}"%char then
        match rest with
        | String d rest' =>
            if Ascii.eqb d "}"%char then
              s ← format_checked rest' args; Some (String "}"%char s)
            else None
        | EmptyString => None
        end
      else s ← format_checked rest args; Some (String c s)
  end.

(** The formatted string where Python returns one.  Every template of the
    notebook is a literal for which it does (see [f_ext_format_defined] and
    [report_templates_defined]). *)
Definition format (template : string) (args : list pyval) : string :=
  default EmptyString (format_checked template args).

End Builtins.

(** The newline character of the Python literal [\n]. *)
Definition nl : string := String (Ascii.ascii_of_nat 10) EmptyString.

(* ===================================================================== *)
(** ** qutip.control.pulseoptim: the optimiser's interface                *)
(* ===================================================================== *)

Module cpo.

(** The arguments of [optimize_pulse] that the notebook sets, under the
    names of the function's parameters. *)
Record OptimArgs : Type := mk_args {
  drift : qobj;
  ctrls : list qobj;
  initial : qobj;
  target : qobj;
  num_tslots : Z;
  evo_time : Z;
  fid_err_targ : float;
  min_grad : float;
  max_iter : Z;
  max_wall_time : Z;
  dyn_type : string;
  out_file_ext : option string;
  init_pulse_type : string;
  log_level : Z;
  gen_stats : bool
}.

(** The fields of the returned [OptimResult] that the notebook reads. *)
Record OptimResult : Type := mk_result {
  stats : handle;
  evo_full_final : qobj;
  fid_err : float;
  grad_norm_final : float;
  termination_reason : string;
  num_iter : Z;
  wall_time : float;
  time : list float;
  initial_amps : ndarray;
  final_amps : ndarray
}.

(** What a call of the optimiser leaves behind: the result object and the
    names of the files it wrote. *)
Record OptimReply : Type := mk_reply {
  reply_result : OptimResult;
  reply_files : list string
}.

(** The file names the optimiser derives from [out_file_ext]: none when it
    is [None], otherwise one for the initial and one for the final
    amplitudes.  The notebook's own log shows the two names. *)
Definition amp_files (ext : option string) : list string :=
  match ext with
  | None => []
  | Some e => ["ctrl_amps_initial_" ++ e; "ctrl_amps_final_" ++ e]
  end.

End cpo.

(* ===================================================================== *)
(** ** The outside world                                                  *)
(* ===================================================================== *)

(** The effectful calls the notebook makes, indexed by what they return. *)
Inductive call : Type -> Type :=
| OptimizePulse (args : cpo.OptimArgs) : call cpo.OptimReply
| StatsReport (stats : handle) : call unit
| PyPrint (text : string) : call unit
| Figure : call handle
| AddSubplot (fig : handle) (rows cols index : Z) : call handle
| SetTitle (ax : handle) (label : string) : call unit
| SetXlabel (ax : handle) (label : string) : call unit
| SetYlabel (ax : handle) (label : string) : call unit
| Step (ax : handle) (x y : list float) (where_ : string) : call unit
| TightLayout : call unit
| PltShow : call unit
| VersionTable : call unit.

Inductive exn : Type :=
| IndexError
| NameError (name : string)
| ValueError
| OverflowError
| LibError (msg : string).

Inductive outcome (A : Type) : Type :=
| Ok (a : A)
| Raise (e : exn).
Arguments Ok {A} a.
Arguments Raise {A} e.

(** [datetime.timedelta(seconds=x)] for a float [x]: ValueError for a NaN,
    OverflowError for a duration beyond 999999999 days either way, which
    includes the infinities; otherwise the duration of [x] seconds. *)
Definition timedelta (seconds : float) : outcome float :=
  if PrimFloat.is_nan seconds then Raise ValueError
  else if PrimFloat.leb (-86399999913600)%float seconds
          && PrimFloat.ltb seconds 86400000000000%float
       then Ok seconds
       else Raise OverflowError.

(** A world answers each call with a value or an exception and moves on.
    The optimiser is the one call that writes files, and it saves the
    initial amplitudes before it starts optimising (the notebook's log
    shows the order), so a call that raises may have written already: the
    world says what. *)
Class World : Type := {
  world : Type;
  respond : forall R : Type, call R -> world -> outcome R * world;
  written_before_raising : cpo.OptimArgs -> world -> list string
}.
Arguments respond {_ R} _ _.

(** One entry of the log: a call that was made. *)
Record event : Type := Event { ev_type : Type; ev_call : call ev_type }.
Arguments Event {_} _.

Definition optimizer_call (ev : event) : option cpo.OptimArgs :=
  match ev_call ev with
  | OptimizePulse args => Some args
  | _ => None
  end.

(** The optimiser calls of a log, in order. *)
Definition optimizer_calls (log : list event) : list cpo.OptimArgs :=
  omap optimizer_call log.

Definition step_call (ev : event) : option (handle * list float * list float) :=
  match ev_call ev with
  | Step ax x y _ => Some (ax, x, y)
  | _ => None
  end.

(** The step plots of a log, in order: the axes, the abscissae and the
    ordinates of each. *)
Definition step_calls (log : list event) : list (handle * list float * list float) :=
  omap step_call log.

(* ===================================================================== *)
(** ** The kernel and its monad                                           *)
(* ===================================================================== *)

(** The names the notebook binds at run time. *)
Record kernel : Type := mk_kernel {
  k_result : option cpo.OptimResult;
  k_fig1 : option handle;
  k_ax1 : option handle;
  k_ax2 : option handle
}.

Definition fresh_kernel : kernel :=
  {| k_result := None; k_fig1 := None; k_ax1 := None; k_ax2 := None |}.

Section Monad.
Context `{World}.

Record state : Type := mk_state {
  st_world : world;
  st_log : list event;
  st_files : list string;
  st_kernel : kernel
}.

Definition start (w : world) : state :=
  {| st_world := w; st_log := []; st_files := []; st_kernel := fresh_kernel |}.

(** A notebook computation: it runs on the kernel state and ends in a value
    or in an exception. *)
Definition NB (A : Type) : Type := state -> outcome A * state.

Definition nb_ret {A : Type} (a : A) : NB A := fun s => (Ok a, s).

Definition nb_bind {A B : Type} (f : A -> NB B) (m : NB A) : NB B :=
  fun s =>
    match m s with
    | (Ok a, s') => f a s'
    | (Raise e, s') => (Raise e, s')
    end.

Definition raise {A : Type} (e : exn) : NB A := fun s => (Raise e, s).

(** A pure expression that may raise. *)
Definition lift {A : Type} (o : outcome A) : NB A := fun s => (o, s).

(** An indexing expression: IndexError when it is out of bounds. *)
Definition index {A : Type} (o : option A) : NB A :=
  match o with
  | Some a => nb_ret a
  | None => raise IndexError
  end.

(** Reading a run-time name: NameError while it is unbound. *)
Definition global {A : Type} (name : string) (field : kernel -> option A) : NB A :=
  fun s =>
    match field (st_kernel s) with
    | Some a => (Ok a, s)
    | None => (Raise (NameError name), s)
    end.

Definition assign (update : kernel -> kernel) : NB unit :=
  fun s => (Ok tt, {| st_world := st_world s; st_log := st_log s;
                      st_files := st_files s; st_kernel := update (st_kernel s) |}).

(** A call to the outside: it is logged, and the world's answer is the
    outcome. *)
Definition extern {R : Type} (c : call R) : NB R :=
  fun s =>
    let (r, w) := respond c (st_world s) in
    (r, {| st_world := w; st_log := st_log s ++ [Event c];
           st_files := st_files s; st_kernel := st_kernel s |}).

Definition wrote (names : list string) : NB unit :=
  fun s => (Ok tt, {| st_world := st_world s; st_log := st_log s;
                      st_files := st_files s ++ names; st_kernel := st_kernel s |}).

End Monad.

#[global] Instance NB_ret `{World} : MRet NB := @nb_ret _.
#[global] Instance NB_bind `{World} : MBind NB := @nb_bind _.

Section Control.
Context `{World}.

(** [for x in l: body] *)
Fixpoint for_ {A : Type} (l : list A) (body : A -> NB unit) : NB unit :=
  match l with
  | [] => mret tt
  | x :: l' => body x ;; for_ l' body
  end.

(** Running cells in order; the first exception stops the run. *)
Fixpoint run_cells (cells : list (NB unit)) : NB unit :=
  match cells with
  | [] => mret tt
  | c :: cells' => c ;; run_cells cells'
  end.

End Control.

(* ===================================================================== *)
(** ** The notebook                                                       *)
(* ===================================================================== *)

Set Warnings "-inexact-float".

(** The expected type reaches the entries of a list literal, so that an
    array literal mixes ints and floats as it does in Python. *)
#[local] Arguments cons {_} & _ _.

Section Notebook.
Context `{Library}.

(** *** Cell 2: imports, logging, the example's name *)

Definition logger : handle := get_logger.
Definition log_level : Z := logging_INFO.
Definition example_name : string := "Symplectic".

(** *** Cell 3: defining the physics *)

Definition w1 : Z := 1.
Definition w2 : Z := 1.
Definition g1 : float := 0.5%float.

Definition A0 : qobj :=
  Qobj (np_array [[w1; 0; g1; 0];
                  [0; w1; 0; g1];
                  [g1; 0; w2; 0];
                  [0; g1; 0; w2]]).

Definition Ac : qobj :=
  Qobj (np_array [[1; 0; 0; 0];
                  [0; 1; 0; 0];
                  [0; 0; 0; 0];
                  [0; 0; 0; 0]]).

Definition ctrls : list qobj := [Ac].
Definition n_ctrls : Z := len ctrls.

Definition initial : qobj := identity 4.

Definition a : Z := 1.
Definition Ag : ndarray :=
  np_array [[0; 0; a; 0];
            [0; 0; 0; a];
            [a; 0; 0; 0];
            [0; a; 0; 0]].

Definition Sg : qobj := expm (Qobj (dot (calc_omega 2) Ag)).

(** *** Cell 4: the time evolution parameters *)

Definition n_ts : Z := 1000.
Definition evo_time : Z := 10.

(** *** Cell 5: the termination conditions *)

Definition fid_err_targ : float := 1e-10%float.
Definition max_iter : Z := 500.
Definition max_wall_time : Z := 30.
Definition min_grad : float := 1e-20%float.

(** *** Cell 6: the initial pulse type *)

Definition p_type : string := "ZERO".

(** *** Cell 7: the extension for output files *)

Definition f_ext_of (example_name : string) (n_ts : Z) (p_type : string) : string :=
  format "{}_n_ts{}_ptype{}.txt" [VStr example_name; VInt n_ts; VStr p_type].

Definition f_ext : string := f_ext_of example_name n_ts p_type.

Context `{World}.

(** *** Cell 8: running the optimisation *)

Definition set_result (r : cpo.OptimResult) (k : kernel) : kernel :=
  {| k_result := Some r; k_fig1 := k_fig1 k; k_ax1 := k_ax1 k; k_ax2 := k_ax2 k |}.

(** [cpo.optimize_pulse(...)]: the call itself lives outside.  Its files
    become files of the run: those a returning call reports, and those a
    raising call had written before it raised. *)
Definition optimize_pulse (args : cpo.OptimArgs) : NB cpo.OptimResult :=
  fun s =>
    match extern (OptimizePulse args) s with
    | (Ok reply, s') =>
        (wrote (cpo.reply_files reply);; mret (cpo.reply_result reply)) s'
    | (Raise e, s') =>
        (wrote (written_before_raising args (st_world s));; raise e) s'
    end.

Definition cell_optimise : NB unit :=
  result ← optimize_pulse
    {| cpo.drift := A0; cpo.ctrls := ctrls; cpo.initial := initial; cpo.target := Sg;
       cpo.num_tslots := n_ts; cpo.evo_time := evo_time;
       cpo.fid_err_targ := fid_err_targ; cpo.min_grad := min_grad;
       cpo.max_iter := max_iter; cpo.max_wall_time := max_wall_time;
       cpo.dyn_type := "SYMPL";
       cpo.out_file_ext := Some f_ext; cpo.init_pulse_type := p_type;
       cpo.log_level := log_level; cpo.gen_stats := true |};
  assign (set_result result).

(** *** Cell 9: reporting the results *)

Definition print (text : string) : NB unit := extern (PyPrint text).

Definition cell_report : NB unit :=
  result ← global "result" k_result;
  extern (StatsReport (cpo.stats result));;
  print (format ("Final evolution" ++ nl ++ "{}" ++ nl)
                [VQobj (cpo.evo_full_final result)]);;
  print "********* Summary *****************";;
  print (format "Final fidelity error {}" [VFloat (cpo.fid_err result)]);;
  print (format "Final gradient normal {}" [VFloat (cpo.grad_norm_final result)]);;
  print (format "Terminated due to {}" [VStr (cpo.termination_reason result)]);;
  print (format "Number of iterations {}" [VInt (cpo.num_iter result)]);;
  elapsed ← lift (timedelta (cpo.wall_time result));
  print (format "Completed in {} HH:MM:SS.US" [VTimedelta elapsed]).

(** *** Cell 10: plotting the initial and final amplitudes *)

Definition set_fig1 (h : handle) (k : kernel) : kernel :=
  {| k_result := k_result k; k_fig1 := Some h; k_ax1 := k_ax1 k; k_ax2 := k_ax2 k |}.
Definition set_ax1 (h : handle) (k : kernel) : kernel :=
  {| k_result := k_result k; k_fig1 := k_fig1 k; k_ax1 := Some h; k_ax2 := k_ax2 k |}.
Definition set_ax2 (h : handle) (k : kernel) : kernel :=
  {| k_result := k_result k; k_fig1 := k_fig1 k; k_ax1 := k_ax1 k; k_ax2 := Some h |}.

(** [np.hstack((amps[:, j], amps[-1, j]))]: column [j] followed by the
    entry of its last row. *)
Definition hstack_column_last (amps : ndarray) (j : Z) : option (list float) :=
  c ← column amps j;
  x ← item amps (-1) j;
  Some (hstack c x).

Definition cell_plot : NB unit :=
  fig1 ← extern Figure;
  assign (set_fig1 fig1);;
  ax1 ← extern (AddSubplot fig1 2 1 1);
  assign (set_ax1 ax1);;
  extern (SetTitle ax1 "Initial Control amps");;
  extern (SetXlabel ax1 "Time");;
  extern (SetYlabel ax1 "Control amplitude");;
  for_ (range n_ctrls) (fun j =>
    result ← global "result" k_result;
    y ← index (hstack_column_last (cpo.initial_amps result) j);
    extern (Step ax1 (cpo.time result) y "post"));;
  ax2 ← extern (AddSubplot fig1 2 1 2);
  assign (set_ax2 ax2);;
  extern (SetTitle ax2 "Optimised Control Amplitudes");;
  extern (SetXlabel ax2 "Time");;
  extern (SetYlabel ax2 "Control amplitude");;
  for_ (range n_ctrls) (fun j =>
    result ← global "result" k_result;
    y ← index (hstack_column_last (cpo.final_amps result) j);
    extern (Step ax2 (cpo.time result) y "post"));;
  extern TightLayout;;
  extern PltShow.

(** *** Cell 11: versions *)

Definition cell_versions : NB unit := extern VersionTable.

(** *** The whole notebook, top to bottom

    Cells 1 to 7 only import and bind the constants above; the cells below
    are the ones that act. *)
Definition notebook : NB unit :=
  run_cells [cell_optimise; cell_report; cell_plot; cell_versions].

Definition run (w : world) : outcome unit * state := notebook (start w).

End Notebook.

(* ===================================================================== *)
(** ** Vocabulary of the statements                                       *)
(* ===================================================================== *)

Section Vocabulary.
Context `{Library} `{World}.

(** The arguments cell 8 passes to the optimiser. *)
Definition passed : cpo.OptimArgs :=
  {| cpo.drift := A0; cpo.ctrls := ctrls; cpo.initial := initial; cpo.target := Sg;
     cpo.num_tslots := n_ts; cpo.evo_time := evo_time;
     cpo.fid_err_targ := fid_err_targ; cpo.min_grad := min_grad;
     cpo.max_iter := max_iter; cpo.max_wall_time := max_wall_time;
     cpo.dyn_type := "SYMPL";
     cpo.out_file_ext := Some f_ext; cpo.init_pulse_type := p_type;
     cpo.log_level := log_level; cpo.gen_stats := true |}.

(** A computation is quiet when it calls no optimiser, writes no file,
    leaves the name [result] alone and only adds to the log. *)
Definition quiet {A : Type} (m : NB A) : Prop :=
  forall s,
    optimizer_calls (st_log (m s).2) = optimizer_calls (st_log s) /\
    st_files (m s).2 = st_files s /\
    k_result (st_kernel (m s).2) = k_result (st_kernel s) /\
    exists more, st_log (m s).2 = (st_log s ++ more)%list.

(** What the notebook relies on from [calc_omega]: the form of [n]
    oscillators is a [2n] x [2n] array. *)
Definition calc_omega_contract : Prop :=
  forall n, square (calc_omega n) (2 * n).

(** What it relies on from [expm]: the exponential of a square operator is
    a square operator of the same dimension. *)
Definition expm_contract : Prop :=
  forall q n, qsquare q n -> qsquare (expm q) n.

End Vocabulary.

(** The calls of the reporting and plotting cells, written out, and the
    conditions under which the plotting cell can index the amplitudes. *)
Section Traces.
Context `{Library} `{World}.

(** The calls of cell 9 for a result [r], in order. *)
Definition report_calls (r : cpo.OptimResult) : list event :=
  [Event (StatsReport (cpo.stats r));
   Event (PyPrint (format ("Final evolution" ++ nl ++ "{}" ++ nl)
                          [VQobj (cpo.evo_full_final r)]));
   Event (PyPrint "********* Summary *****************");
   Event (PyPrint (format "Final fidelity error {}" [VFloat (cpo.fid_err r)]));
   Event (PyPrint (format "Final gradient normal {}"
                          [VFloat (cpo.grad_norm_final r)]));
   Event (PyPrint (format "Terminated due to {}"
                          [VStr (cpo.termination_reason r)]));
   Event (PyPrint (format "Number of iterations {}" [VInt (cpo.num_iter r)]));
   Event (PyPrint (format "Completed in {} HH:MM:SS.US"
                          [VTimedelta (cpo.wall_time r)]))].

(** The calls of cell 10, in order, for the figure [fig], the axes [ax1]
    and [ax2] and the ordinates [y1] and [y2] of the two step plots. *)
Definition plot_calls (r : cpo.OptimResult) (fig ax1 ax2 : handle)
    (y1 y2 : list float) : list event :=
  [Event Figure;
   Event (AddSubplot fig 2 1 1);
   Event (SetTitle ax1 "Initial Control amps");
   Event (SetXlabel ax1 "Time");
   Event (SetYlabel ax1 "Control amplitude");
   Event (Step ax1 (cpo.time r) y1 "post");
   Event (AddSubplot fig 2 1 2);
   Event (SetTitle ax2 "Optimised Control Amplitudes");
   Event (SetXlabel ax2 "Time");
   Event (SetYlabel ax2 "Control amplitude");
   Event (Step ax2 (cpo.time r) y2 "post");
   Event TightLayout;
   Event PltShow].

(** An amplitude array the plotting loops can index: well formed, with at
    least one row and one column per control. *)
Definition plottable (amps : ndarray) : Prop :=
  wf amps /\ nrows amps <> 0%nat /\ Z.of_nat (ncols amps) = n_ctrls.

(** A result whose wall time [datetime.timedelta] accepts. *)
Definition reportable (r : cpo.OptimResult) : Prop :=
  timedelta (cpo.wall_time r) = Ok (cpo.wall_time r).

(** A world in which no call raises. *)
Definition never_raises : Prop :=
  forall (R : Type) (c : call R) (u : world),
    exists r u', respond c u = (Ok r, u').

(** A world whose optimiser answers the notebook's call with plottable
    amplitudes. *)
Definition returns_plottable : Prop :=
  forall u reply u',
    respond (OptimizePulse passed) u = (Ok reply, u') ->
    plottable (cpo.initial_amps (cpo.reply_result reply)) /\
    plottable (cpo.final_amps (cpo.reply_result reply)).

(** A world whose optimiser answers the notebook's call with a reportable
    result. *)
Definition returns_reportable : Prop :=
  forall u reply u',
    respond (OptimizePulse passed) u = (Ok reply, u') ->
    reportable (cpo.reply_result reply).

End Traces.

(* ===================================================================== *)
(** ** Sample instances of the outside                                    *)
(* ===================================================================== *)

(** A concrete library and concrete worlds, on which the statements below
    are exercised. *)
Module Sample.

(** The symplectic form of [n] oscillators: [n] diagonal blocks
    [[0, 1], [-1, 0]]. *)
Definition omega (n : nat) : ndarray :=
  {| dtype_of := float64;
     nrows := 2 * n;
     ncols := 2 * n;
     buf := flat_map
              (fun j => map (fun k =>
                 if Nat.eqb k (j + 1) && Nat.even j then 1%float
                 else if Nat.eqb (k + 1) j && Nat.odd j then (-1)%float
                 else 0%float)
                 (seq 0 (2 * n)))
              (seq 0 (2 * n)) |}.

Definition add_scaled (a : ndarray) (c : float) (b : ndarray) : ndarray :=
  {| dtype_of := float64;
     nrows := nrows a;
     ncols := ncols a;
     buf := zip_with (fun x y => PrimFloat.add x (PrimFloat.mul c y)) (buf a) (buf b) |}.

(** The Taylor polynomial of the exponential, in Horner form:
    [taylor m k fuel] is [I + m/k (I + m/(k+1) (...))]. *)
Fixpoint taylor (m : ndarray) (k : Z) (fuel : nat) : ndarray :=
  match fuel with
  | O => eye (nrows m)
  | S fuel' =>
      add_scaled (eye (nrows m))
                 (PrimFloat.div 1%float (float_of_Z k))
                 (dot m (taylor m (k + 1) fuel'))
  end.

Definition expm_taylor (q : qobj) : qobj :=
  {| qdata := taylor (qdata q) 1 24; qdims := qdims q |}.

Definition library : Library :=
  {| calc_omega := omega;
     expm := expm_taylor;
     logging_INFO := 20;
     get_logger := O;
     repr_float := fun _ => "<float>";
     str_qobj := fun _ => "<Qobj>";
     str_timedelta := fun _ => "<timedelta>" |}.

Definition zeros (r c : nat) : ndarray :=
  {| dtype_of := float64; nrows := r; ncols := c; buf := repeat 0%float (r * c) |}.

(** A result of the documented shape: [num_tslots] rows and one column per
    control in the amplitudes, [num_tslots + 1] points of time. *)
Definition result_for (args : cpo.OptimArgs) (stats : handle) : cpo.OptimResult :=
  let n := Z.to_nat (cpo.num_tslots args) in
  {| cpo.stats := stats;
     cpo.evo_full_final := cpo.target args;
     cpo.fid_err := 0%float;
     cpo.grad_norm_final := 0%float;
     cpo.termination_reason := "Goal achieved";
     cpo.num_iter := 0;
     cpo.wall_time := 0%float;
     cpo.time := map (fun i => PrimFloat.div
                                 (PrimFloat.mul (float_of_Z (Z.of_nat i))
                                                (float_of_Z (cpo.evo_time args)))
                                 (float_of_Z (cpo.num_tslots args)))
                     (seq 0 (S n));
     cpo.initial_amps := zeros n (length (cpo.ctrls args));
     cpo.final_amps := zeros n (length (cpo.ctrls args)) |}.

(** A world that answers every call; its state is the next free handle. *)
Definition answer (R : Type) (c : call R) (next : nat) : outcome R * nat :=
  match c in call R return outcome R * nat with
  | OptimizePulse args =>
      (Ok {| cpo.reply_result := result_for args next;
             cpo.reply_files := cpo.amp_files (cpo.out_file_ext args) |}, S next)
  | Figure => (Ok next, S next)
  | AddSubplot _ _ _ _ => (Ok next, S next)
  | StatsReport _ | PyPrint _ | SetTitle _ _ | SetXlabel _ _ | SetYlabel _ _
  | Step _ _ _ _ | TightLayout | PltShow | VersionTable => (Ok tt, next)
  end.

(** What an optimiser that stops after saving the initial amplitudes has
    written. *)
Definition initial_only (args : cpo.OptimArgs) : list string :=
  match cpo.out_file_ext args with
  | None => []
  | Some e => ["ctrl_amps_initial_" ++ e]
  end.

Definition cooperative : World :=
  {| world := nat; respond := answer;
     written_before_raising := fun args _ => initial_only args |}.



(** A world whose optimiser gives up. *)
Definition refuse (R : Type) (c : call R) (next : nat) : outcome R * nat :=
  match c in call R return outcome R * nat with
  | OptimizePulse _ => (Raise (LibError "optimisation failed"), next)
  | c' => answer _ c' next
  end.

Definition failing : World :=
  {| world := nat; respond := refuse;
     written_before_raising := fun args _ => initial_only args |}.

(** A result over no timeslot: amplitude arrays with no row. *)
Definition no_slots : cpo.OptimResult :=
  {| cpo.stats := O;
     cpo.evo_full_final := identity 4;
     cpo.fid_err := 0%float;
     cpo.grad_norm_final := 0%float;
     cpo.termination_reason := "";
     cpo.num_iter := 0;
     cpo.wall_time := 0%float;
     cpo.time := [0%float];
     cpo.initial_amps := zeros 0 1;
     cpo.final_amps := zeros 0 1 |}.

(** Kernel states of the cooperative world: a fresh one, the one cell 8
    leaves, and one whose [result] has no timeslot. *)
Definition fresh : @state cooperative := @start cooperative O.

Definition optimised : @state cooperative :=
  (@cell_optimise library cooperative fresh).2.

Definition degenerate : @state cooperative :=
  @mk_state cooperative O [] [] (set_result no_slots fresh_kernel).

End Sample.

(* ===================================================================== *)
(** ** The target, written out                                            *)
(* ===================================================================== *)

(** The product of the symplectic form of two oscillators with [Ag]: the
    generator of the target. *)
Definition target_generator : ndarray :=
  {| dtype_of := float64; nrows := 4; ncols := 4;
     buf := [0; 0; 0; 1;
             0; 0; -1; 0;
             0; 1; 0; 0;
             -1; 0; 0; 0]%float |}.

(** The target operator as the log of cell 8 prints it, to eight
    decimals. *)
Definition printed_target : list float :=
  [0.54030231; 0; 0; 0.84147098;
   0; 0.54030231; -0.84147098; 0;
   0; 0.84147098; 0.54030231; 0;
   -0.84147098; 0; 0; 0.54030231]%float.

(** Two buffers of the same length whose entries differ by less than
    [tol]. *)
Fixpoint agree (tol : float) (xs ys : list float) : bool :=
  match xs, ys with
  | [], [] => true
  | x :: xs', y :: ys' =>
      PrimFloat.ltb (PrimFloat.abs (PrimFloat.sub x y)) tol && agree tol xs' ys'
  | _, _ => false
  end.

(* ===================================================================== *)
(** ** Facts about arrays                                                 *)
(* ===================================================================== *)

Section ArrayFacts.

Lemma length_grid {A : Type} (f : nat -> nat -> A) (r c : nat) :
  length (flat_map (fun i => map (f i) (seq 0 c)) (seq 0 r)) = (r * c)%nat.
Proof.
  generalize 0%nat at 2 as start.
  induction r as [|r IH]; intros start; simpl; [reflexivity|].
  rewrite length_app, length_map, length_seq, IH. reflexivity.
Qed.

Lemma dot_wf (a b : ndarray) : wf (dot a b).
Proof. unfold wf, dot; simpl. apply length_grid. Qed.

Lemma dot_shape (a b : ndarray) : shape (dot a b) = (nrows a, ncols b).
Proof. reflexivity. Qed.

Lemma eye_square (n : nat) : square (eye n) n.
Proof.
  split; [|reflexivity].
  unfold wf, eye; simpl.
  apply (length_grid (fun i j => if Nat.eqb i j then 1%float else 0%float)).
Qed.

Lemma norm_index_lt (n : nat) (i : Z) (k : nat) :
  norm_index n i = Some k -> (k < n)%nat.
Proof.
  unfold norm_index.
  destruct (0 <=? i)%Z eqn:E1, (i <? Z.of_nat n)%Z eqn:E2; simpl;
    try (destruct (- Z.of_nat n <=? i)%Z eqn:E3, (i <? 0)%Z eqn:E4; simpl);
    intros [= <-]; lia.
Qed.

Lemma norm_index_front (n : nat) (i : nat) :
  (i < n)%nat -> norm_index n (Z.of_nat i) = Some i.
Proof.
  intros Hi. unfold norm_index.
  replace (0 <=? Z.of_nat i)%Z with true by (symmetry; apply Z.leb_le; lia).
  replace (Z.of_nat i <? Z.of_nat n)%Z with true by (symmetry; apply Z.ltb_lt; lia).
  simpl. rewrite Nat2Z.id. reflexivity.
Qed.

Lemma norm_index_last (n : nat) :
  n <> 0%nat -> norm_index n (-1) = Some (n - 1)%nat.
Proof.
  intros Hn. unfold norm_index. simpl.
  replace (- Z.of_nat n <=? -1)%Z with true by (symmetry; apply Z.leb_le; lia).
  simpl. f_equal. lia.
Qed.

(** A column index within bounds selects one entry from each row. *)
Lemma column_defined (a : ndarray) (j : Z) (j' : nat) :
  wf a -> norm_index (ncols a) j = Some j' ->
  exists c, column a j = Some c /\ length c = nrows a /\
    forall i, (i < nrows a)%nat -> c !! i = buf a !! (i * ncols a + j')%nat.
Proof.
  intros Hwf Hj. unfold column. rewrite Hj. simpl.
  pose proof (norm_index_lt _ _ _ Hj) as Hlt.
  destruct (mapM (fun i => buf a !! (i * ncols a + j')%nat) (seq 0 (nrows a)))
    as [c|] eqn:Hc.
  - exists c. split; [reflexivity|].
    apply mapM_Some in Hc.
    pose proof (Forall2_length _ _ _ Hc) as Hlen. rewrite length_seq in Hlen.
    split; [lia|]. intros i Hi.
    destruct (Forall2_lookup_l _ _ _ i i Hc) as (y & Hy & Hbuf).
    { apply lookup_seq. lia. }
    rewrite Hy. symmetry. exact Hbuf.
  - exfalso.
    assert (is_Some (mapM (fun i => buf a !! (i * ncols a + j')%nat)
                          (seq 0 (nrows a)))) as [c Hc'].
    { apply mapM_is_Some, Forall_forall. intros i Hi.
      apply elem_of_seq in Hi. simpl.
      apply lookup_lt_is_Some. unfold wf in Hwf. rewrite Hwf. nia. }
    congruence.
Qed.

End ArrayFacts.

(* ===================================================================== *)
(** ** Facts about the monad: what a computation leaves untouched         *)
(* ===================================================================== *)

Section Quiet.
Context `{World}.

Lemma quiet_ret {A : Type} (x : A) : quiet (mret x).
Proof. intros s. repeat split. exists []. symmetry. apply app_nil_r. Qed.

Lemma quiet_raise {A : Type} (e : exn) : quiet (raise (A := A) e).
Proof. intros s. repeat split. exists []. symmetry. apply app_nil_r. Qed.

Lemma quiet_bind {A B : Type} (m : NB A) (f : A -> NB B) :
  quiet m -> (forall x, quiet (f x)) -> quiet (m ≫= f).
Proof.
  intros Hm Hf s. specialize (Hm s).
  unfold mbind, NB_bind, nb_bind.
  destruct (m s) as [[x|e] s']; simpl in *.
  - destruct Hm as (Hcalls & Hfiles & Hres & more & Hlog).
    destruct (Hf x s') as (-> & -> & -> & more' & ->).
    repeat split; try assumption.
    exists (more ++ more')%list. rewrite Hlog. symmetry. apply app_assoc.
  - exact Hm.
Qed.

Lemma quiet_lift {A : Type} (o : outcome A) : quiet (lift o).
Proof. intros s. repeat split. exists []. symmetry. apply app_nil_r. Qed.

Lemma quiet_index {A : Type} (o : option A) : quiet (index o).
Proof. destruct o; [apply quiet_ret | apply quiet_raise]. Qed.

Lemma quiet_global {A : Type} (name : string) (field : kernel -> option A) :
  quiet (global name field).
Proof.
  intros s. unfold global.
  destruct (field (st_kernel s)); repeat split; exists []; symmetry; apply app_nil_r.
Qed.

Lemma quiet_assign (update : kernel -> kernel) :
  (forall k, k_result (update k) = k_result k) -> quiet (assign update).
Proof.
  intros Hup s. repeat split; simpl.
  - apply Hup.
  - exists []. symmetry. apply app_nil_r.
Qed.

Lemma quiet_extern {R : Type} (c : call R) :
  optimizer_call (Event c) = None -> quiet (extern c).
Proof.
  intros Hc s. unfold extern.
  destruct (respond c (st_world s)) as [r w]; simpl.
  unfold optimizer_calls. rewrite omap_app. simpl. rewrite Hc.
  rewrite app_nil_r. repeat split. eexists. reflexivity.
Qed.

Lemma quiet_for {A : Type} (l : list A) (body : A -> NB unit) :
  (forall x, quiet (body x)) -> quiet (for_ l body).
Proof.
  intros Hbody. induction l as [|x l IH]; simpl.
  - apply quiet_ret.
  - apply quiet_bind; auto.
Qed.

End Quiet.

Create HintDb quiet.
#[global] Hint Resolve quiet_ret quiet_raise quiet_lift quiet_index
  quiet_global quiet_for : quiet.
#[global] Hint Extern 2 (quiet (_ ≫= _)) => apply quiet_bind; [|intros ?] : quiet.
#[global] Hint Extern 2 (quiet (extern _)) => apply quiet_extern; reflexivity : quiet.
#[global] Hint Extern 2 (quiet (assign _)) => apply quiet_assign; reflexivity : quiet.

Section CellFacts.
Context `{Library} `{World}.

Lemma quiet_report : quiet cell_report.
Proof. unfold cell_report, print. auto 20 with quiet. Qed.

Lemma quiet_plot : quiet cell_plot.
Proof. unfold cell_plot. auto 40 with quiet. Qed.

Lemma quiet_versions : quiet cell_versions.
Proof. unfold cell_versions. auto with quiet. Qed.

End CellFacts.

(* ===================================================================== *)
(** ** The run, up to and after the optimiser call                        *)
(* ===================================================================== *)

Section RunFacts.
Context `{Library} `{World}.

Lemma quiet_after_optimise : quiet (run_cells [cell_report; cell_plot; cell_versions]).
Proof.
  simpl. pose proof quiet_report. pose proof quiet_plot. pose proof quiet_versions.
  auto 10 with quiet.
Qed.

(** The state in which cell 8 leaves the kernel when the optimiser
    returns [reply]. *)
Lemma run_returned (w w' : world) (reply : cpo.OptimReply) :
  respond (OptimizePulse passed) w = (Ok reply, w') ->
  run w = run_cells [cell_report; cell_plot; cell_versions]
            {| st_world := w';
               st_log := [Event (OptimizePulse passed)];
               st_files := cpo.reply_files reply;
               st_kernel := set_result (cpo.reply_result reply) fresh_kernel |}.
Proof.
  intros E. unfold run, notebook.
  change (run_cells (cell_optimise :: ?l)) with (cell_optimise ;; run_cells l).
  unfold mbind at 1. unfold NB_bind, nb_bind at 1.
  unfold cell_optimise, optimize_pulse, mbind, NB_bind, nb_bind, extern, start.
  simpl st_world. fold passed. rewrite E. reflexivity.
Qed.

(** The state in which the run ends when the optimiser raises [e]. *)
Lemma run_raised (w w' : world) (e : exn) :
  respond (OptimizePulse passed) w = (Raise e, w') ->
  run w = (Raise e,
           {| st_world := w';
              st_log := [Event (OptimizePulse passed)];
              st_files := written_before_raising passed w;
              st_kernel := fresh_kernel |}).
Proof.
  intros E. unfold run, notebook.
  change (run_cells (cell_optimise :: ?l)) with (cell_optimise ;; run_cells l).
  unfold mbind at 1. unfold NB_bind, nb_bind at 1.
  unfold cell_optimise, optimize_pulse, mbind, NB_bind, nb_bind, extern, start.
  simpl st_world. fold passed. rewrite E. reflexivity.
Qed.

Lemma run_log (w : world) :
  exists rest, st_log (run w).2 = Event (OptimizePulse passed) :: rest /\
               optimizer_calls rest = [].
Proof.
  destruct (respond (OptimizePulse passed) w) as [[reply|e] w'] eqn:E.
  - rewrite (run_returned _ _ _ E).
    destruct (quiet_after_optimise
                {| st_world := w';
                   st_log := [Event (OptimizePulse passed)];
                   st_files := cpo.reply_files reply;
                   st_kernel := set_result (cpo.reply_result reply) fresh_kernel |})
      as (Hcalls & _ & _ & more & Hlog).
    simpl in Hlog, Hcalls. exists more. split; [exact Hlog|].
    rewrite Hlog in Hcalls. simpl in Hcalls. congruence.
  - rewrite (run_raised _ _ _ E). exists []. split; reflexivity.
Qed.

Lemma run_optimizer_calls (w : world) :
  optimizer_calls (st_log (run w).2) = [passed].
Proof.
  destruct (run_log w) as (rest & -> & Hrest).
  simpl. rewrite Hrest. reflexivity.
Qed.

End RunFacts.

(* ===================================================================== *)
(** ** Facts about the sample instances                                   *)
(* ===================================================================== *)

Section SampleFacts.

Lemma sample_omega_square : @calc_omega_contract Sample.library.
Proof.
  intros n. split; [|reflexivity].
  unfold wf; simpl. unfold Sample.omega; simpl buf; simpl nrows; simpl ncols.
  apply (length_grid (fun j k =>
           if Nat.eqb k (j + 1) && Nat.even j then 1%float
           else if Nat.eqb (k + 1) j && Nat.odd j then (-1)%float
           else 0%float)).
Qed.

Lemma sample_add_scaled_wf (x : ndarray) (c : float) (y : ndarray) :
  wf x -> length (buf y) = length (buf x) -> wf (Sample.add_scaled x c y).
Proof.
  unfold wf, Sample.add_scaled. cbn [buf nrows ncols].
  intros Hx Hy. rewrite length_zip_with. lia.
Qed.

Lemma sample_taylor_square (m : ndarray) (k : Z) (fuel : nat) :
  square (Sample.taylor m k fuel) (nrows m).
Proof.
  revert k. induction fuel as [|fuel IH]; intros k.
  - apply eye_square.
  - split; [|reflexivity].
    change (Sample.taylor m k (S fuel))
      with (Sample.add_scaled (eye (nrows m))
              (PrimFloat.div 1%float (float_of_Z k))
              (dot m (Sample.taylor m (k + 1) fuel))).
    destruct (eye_square (nrows m)) as [Heye _].
    apply sample_add_scaled_wf; [exact Heye|].
    rewrite Heye, (dot_wf m (Sample.taylor m (k + 1) fuel)).
    destruct (IH (k + 1)) as [_ Hshape]. injection Hshape as _ Hc.
    change (ncols (dot m (Sample.taylor m (k + 1) fuel)))
      with (ncols (Sample.taylor m (k + 1) fuel)).
    rewrite Hc. reflexivity.
Qed.

Lemma sample_expm_square : @expm_contract Sample.library.
Proof.
  intros q n [[Hwf Hshape] Hdims]. injection Hshape as Hr Hc.
  change (@expm Sample.library q) with (Sample.expm_taylor q).
  unfold qsquare, Sample.expm_taylor. cbn [qdata qdims].
  split; [|exact Hdims].
  rewrite <- Hr. apply sample_taylor_square.
Qed.

End SampleFacts.

(* ===================================================================== *)
(** ** The physics of cell 3                                              *)
(* ===================================================================== *)

Section Physics.
Context `{Library}.

(** C1.  The target operator [Sg] is the matrix exponential of the product
    of the symplectic form of two oscillators, [calc_omega(2)], with the
    target generator [Ag]; [Ag] is the fixed 4 x 4 coupling matrix, built
    with [a = 1].  Entry by entry: [Ag] holds ones at (0,2), (1,3), (2,0),
    (3,1); with the symplectic form for [calc_omega(2)] the product is
    [target_generator], whose square is minus the identity, so that its
    exponential is a rotation; and with the Taylor polynomial for the
    exponential, [Sg] is the target the log of cell 8 prints, to its eight
    decimals. *)
Theorem Sg_is_expm_of_omega_Ag (Homega : calc_omega 2 = Sample.omega 2) :
  a = 1 /\
  Ag = np_array [[0; 0; 1; 0];
                 [0; 0; 0; 1];
                 [1; 0; 0; 0];
                 [0; 1; 0; 0]] /\
  Ag = {| dtype_of := int64; nrows := 4; ncols := 4;
          buf := [0; 0; 1; 0;
                  0; 0; 0; 1;
                  1; 0; 0; 0;
                  0; 1; 0; 0]%float |} /\
  Sg = expm (Qobj (dot (calc_omega 2) Ag)) /\
  dot (calc_omega 2) Ag = target_generator /\
  Sg = expm {| qdata := target_generator; qdims := [[4%nat]; [4%nat]] |} /\
  dot target_generator target_generator
  = {| dtype_of := float64; nrows := 4; ncols := 4;
       buf := [-1; 0; 0; 0;
               0; -1; 0; 0;
               0; 0; -1; 0;
               0; 0; 0; -1]%float |} /\
  agree 5e-9 (buf (qdata (@Sg Sample.library))) printed_target = true.
Proof.
  assert (dot (calc_omega 2) Ag = target_generator) as Hdot
    by (rewrite Homega; vm_compute; reflexivity).
  split_and!; try reflexivity.
  - exact Hdot.
  - unfold Sg. rewrite Hdot. reflexivity.
Qed.

Lemma notebook_literals_rectangular :
  rectangular [[w1; 0; g1; 0]; [0; w1; 0; g1]; [g1; 0; w2; 0]; [0; g1; 0; w2]] = true /\
  rectangular [[1; 0; 0; 0]; [0; 1; 0; 0]; [0; 0; 0; 0]; [0; 0; 0; 0]] = true /\
  rectangular [[0; 0; a; 0]; [0; 0; 0; a]; [a; 0; 0; 0]; [0; a; 0; 0]] = true.
Proof. repeat split. Qed.

(** The notebook's only matrix product is defined as soon as
    [calc_omega(2)] has four columns. *)
Lemma omega_Ag_defined : calc_omega_contract -> dot_defined (calc_omega 2) Ag.
Proof.
  intros Homega. destruct (Homega 2%nat) as [_ Hshape].
  injection Hshape as _ Hc. unfold dot_defined. rewrite Hc. reflexivity.
Qed.

(** C5.  Every matrix the notebook constructs is square of dimension 4:
    the drift [A0], the control [Ac], the initial operator [identity(4)],
    the target generator [Ag] and the target operator [Sg]; the product
    behind [Sg] has matching inner dimensions.  For [Sg] this rests on the
    shapes [calc_omega] and [expm] return. *)
Theorem all_matrices_square_of_dimension_4
    (Homega : calc_omega_contract) (Hexpm : expm_contract) :
  qsquare A0 4 /\ qsquare Ac 4 /\ qsquare initial 4 /\ square Ag 4 /\
  qsquare Sg 4 /\
  Forall (fun c => qsquare c 4) ctrls /\
  dot_defined (calc_omega 2) Ag.
Proof.
  assert (qsquare Sg 4) as HSg.
  { apply Hexpm. destruct (Homega 2%nat) as [_ Hshape]. injection Hshape as Hr Hc.
    unfold qsquare, square, Qobj. cbn [qdata qdims].
    rewrite dot_shape. change (nrows (dot ?x ?y)) with (nrows x).
    change (ncols (dot ?x ?y)) with (ncols y). rewrite Hr.
    split; [split|]; [apply dot_wf | reflexivity | reflexivity]. }
  assert (qsquare A0 4) as HA0 by (repeat split).
  assert (qsquare Ac 4) as HAc by (repeat split).
  assert (qsquare initial 4) as Hinitial by (repeat split).
  assert (square Ag 4) as HAg by (repeat split).
  assert (Forall (fun c => qsquare c 4) ctrls) as Hctrls
    by (repeat constructor).
  pose proof (omega_Ag_defined Homega) as Hdot.
  tauto.
Qed.

(** C8.  Each generator is symmetric: the drift [A0], the control [Ac] and
    the target generator [Ag] equal their transposes. *)
Theorem generators_symmetric :
  symmetric (qdata A0) /\ symmetric (qdata Ac) /\ symmetric Ag.
Proof. repeat split. Qed.

End Physics.

(* ===================================================================== *)
(** ** The configuration of cells 4 to 7                                  *)
(* ===================================================================== *)

Section Configuration.
Context `{Library}.

(** The template of [f_ext] is well formed for its three arguments: Python
    raises nothing, and [format] is the string Python returns. *)
Lemma f_ext_format_defined (name : string) (n : Z) (p : string) :
  format_checked "{}_n_ts{}_ptype{}.txt" [VStr name; VInt n; VStr p]
  = Some (name ++ "_n_ts" ++ pretty n ++ "_ptype" ++ p ++ ".txt").
Proof. reflexivity. Qed.

Lemma string_app_empty (s : string) : s ++ "" = s.
Proof.
  induction s as [|c s IH]; [reflexivity|].
  change (String c (s ++ "") = String c s). rewrite IH. reflexivity.
Qed.

(** So are the templates of the report, for any value they are given. *)
Lemma report_templates_defined (v : pyval) :
  format_checked ("Final evolution" ++ nl ++ "{}" ++ nl) [v]
    = Some ("Final evolution" ++ nl ++ py_str v ++ nl) /\
  format_checked "Final fidelity error {}" [v]
    = Some ("Final fidelity error " ++ py_str v) /\
  format_checked "Final gradient normal {}" [v]
    = Some ("Final gradient normal " ++ py_str v) /\
  format_checked "Terminated due to {}" [v]
    = Some ("Terminated due to " ++ py_str v) /\
  format_checked "Number of iterations {}" [v]
    = Some ("Number of iterations " ++ py_str v) /\
  format_checked "Completed in {} HH:MM:SS.US" [v]
    = Some ("Completed in " ++ py_str v ++ " HH:MM:SS.US").
Proof.
  repeat split; simpl; rewrite ?string_app_empty; reflexivity.
Qed.

End Configuration.

(* ===================================================================== *)
(** ** The optimiser call of cell 8                                       *)
(* ===================================================================== *)

Section Optimiser.
Context `{Library} `{World}.

(** C2.  In every execution, whatever the outside answers, the notebook
    calls [optimize_pulse] exactly once: the call opens the log, nothing
    after it is an optimiser call, and its first four arguments are the
    drift [A0], the control list [[Ac]], [identity(4)] and the target [Sg].
    The call is synchronous: when it returns, the name [result] holds what
    it returned for the rest of the run. *)
Theorem optimize_pulse_called_once (w : world) :
  exists args rest,
    st_log (run w).2 = Event (OptimizePulse args) :: rest /\
    optimizer_calls rest = [] /\
    optimizer_calls (st_log (run w).2) = [args] /\
    cpo.drift args = A0 /\
    cpo.ctrls args = [Ac] /\
    cpo.initial args = identity 4 /\
    cpo.target args = Sg /\
    (forall reply w',
        respond (OptimizePulse args) w = (Ok reply, w') ->
        k_result (st_kernel (run w).2) = Some (cpo.reply_result reply)).
Proof.
  destruct (run_log w) as (rest & Hlog & Hrest).
  exists passed, rest. repeat split; try assumption.
  - apply run_optimizer_calls.
  - intros reply w' E. rewrite (run_returned _ _ _ E).
    destruct (quiet_after_optimise
                {| st_world := w';
                   st_log := [Event (OptimizePulse passed)];
                   st_files := cpo.reply_files reply;
                   st_kernel := set_result (cpo.reply_result reply) fresh_kernel |})
      as (_ & _ & Hres & _).
    exact Hres.
Qed.

(** C3.  The scalar configuration passed to [optimize_pulse] is fixed:
    [n_ts = 1000] timeslots, [evo_time = 10], [fid_err_targ = 1e-10],
    [min_grad = 1e-20], [max_iter = 500], [max_wall_time = 30] and the
    initial pulse type [p_type = 'ZERO']. *)
Theorem optimize_pulse_scalar_configuration (w : world) :
  exists args,
    optimizer_calls (st_log (run w).2) = [args] /\
    cpo.num_tslots args = n_ts /\ n_ts = 1000 /\
    cpo.evo_time args = evo_time /\ evo_time = 10 /\
    cpo.fid_err_targ args = fid_err_targ /\ fid_err_targ = 1e-10%float /\
    cpo.min_grad args = min_grad /\ min_grad = 1e-20%float /\
    cpo.max_iter args = max_iter /\ max_iter = 500 /\
    cpo.max_wall_time args = max_wall_time /\ max_wall_time = 30 /\
    cpo.init_pulse_type args = p_type /\ p_type = "ZERO".
Proof.
  exists passed. split; [apply run_optimizer_calls|]. repeat split.
Qed.


(** No cell catches: once a computation has raised, what follows it is
    skipped. *)
Lemma raise_skips_rest {A B : Type} (e : exn) (f : A -> NB B) (s : state) :
  (raise e ≫= f) s = (Raise e, s).
Proof. reflexivity. Qed.

(** C7.  The notebook handles no failure.  When the optimiser call raises,
    the run ends with that very exception; no later statement runs (the
    log ends with the call); the kernel keeps the bindings it had before
    the call, with [result] unbound; and the notebook adds no file to what
    the optimiser itself had written before it raised. *)
Theorem optimizer_error_propagates
    (w w' : world) (args : cpo.OptimArgs) (e : exn)
    (Hcall : optimizer_calls (st_log (run w).2) = [args])
    (Hraise : respond (OptimizePulse args) w = (Raise e, w')) :
  (run w).1 = Raise e /\
  st_log (run w).2 = [Event (OptimizePulse args)] /\
  st_kernel (run w).2 = st_kernel (start w) /\
  k_result (st_kernel (run w).2) = None /\
  st_files (run w).2 = written_before_raising args w /\
  st_world (run w).2 = w'.
Proof.
  rewrite run_optimizer_calls in Hcall. injection Hcall as <-.
  rewrite (run_raised _ _ _ Hraise). repeat split.
Qed.

End Optimiser.

(** C4.  The extension [f_ext] is a function of the example's name, the
    number of timeslots and the pulse type alone: with ['Symplectic'],
    [1000] and ['ZERO'] it is ['Symplectic_n_ts1000_ptypeZERO.txt'], and any
    two runs, against any two libraries and worlds, pass that same string
    as [out_file_ext]. *)
Theorem f_ext_deterministic
    (L1 L2 : Library) (W1 W2 : World) (u : @world W1) (v : @world W2) :
  @f_ext_of L1 "Symplectic" 1000 "ZERO" = "Symplectic_n_ts1000_ptypeZERO.txt" /\
  @f_ext_of L2 "Symplectic" 1000 "ZERO" = "Symplectic_n_ts1000_ptypeZERO.txt" /\
  @f_ext L1 = @f_ext L2 /\
  map cpo.out_file_ext (optimizer_calls (st_log (@run L1 W1 u).2))
    = [Some "Symplectic_n_ts1000_ptypeZERO.txt"] /\
  map cpo.out_file_ext (optimizer_calls (st_log (@run L2 W2 v).2))
    = [Some "Symplectic_n_ts1000_ptypeZERO.txt"].
Proof.
  repeat split; rewrite run_optimizer_calls; reflexivity.
Qed.

(* ===================================================================== *)
(** ** The plotting loops of cell 10                                      *)
(* ===================================================================== *)

Section Plotting.

(** C9.  The control list holds exactly one generator, so
    [n_ctrls = len(ctrls) = 1]; the index [j] of both plotting loops, drawn
    from [range(n_ctrls)], only takes the value 0 (each loop runs its body
    once, at 0); and for an amplitude array with [n_ctrls] columns the
    indexing [amps[:, j]] is within bounds. *)
Theorem plot_column_index_in_bounds (amps : ndarray) (j : Z)
    (Hwf : wf amps)
    (Hcols : Z.of_nat (ncols amps) = n_ctrls)
    (Hj : j ∈ range n_ctrls) :
  ctrls = [Ac] /\ n_ctrls = len ctrls /\ n_ctrls = 1 /\
  range n_ctrls = [0] /\
  (forall (W : World) (body : Z -> NB unit),
      for_ (range n_ctrls) body = (body 0 ;; mret tt)) /\
  j = 0 /\
  exists c, column amps j = Some c /\ length c = nrows amps.
Proof.
  assert (j = 0) as ->.
  { change (range n_ctrls) with [0] in Hj.
    apply list_elem_of_singleton in Hj. exact Hj. }
  repeat split.
  assert (norm_index (ncols amps) 0 = Some 0%nat) as Hnorm.
  { apply (norm_index_front (ncols amps) 0).
    change n_ctrls with 1 in Hcols. lia. }
  destruct (column_defined amps 0 0 Hwf Hnorm) as (c & Hc & Hlen & _).
  exists c. split; assumption.
Qed.

(** With no rows there is no last row: [amps[-1, j]] is an IndexError. *)
Lemma hstack_column_last_no_rows (amps : ndarray) (j : Z) :
  nrows amps = 0%nat -> hstack_column_last amps j = None.
Proof.
  intros Hrows. unfold hstack_column_last, item.
  destruct (column amps j); simpl; [|reflexivity].
  rewrite Hrows. reflexivity.
Qed.

(** C10.  For a control index [j], the sequence handed to the step plot is
    column [j] of the amplitudes with its final value appended once: it is
    one longer than the array has rows ([n_ts + 1], the length of
    [result.time], when the array has [n_ts] rows), its leading entries are
    the column, and its last two entries are equal. *)
Theorem step_sequence_appends_last_value
    (amps : ndarray) (j : Z) (c : list float)
    (Hwf : wf amps)
    (Hrows : nrows amps <> 0%nat)
    (Hcol : column amps j = Some c) :
  exists y x,
    hstack_column_last amps j = Some y /\
    length c = nrows amps /\
    length y = S (nrows amps) /\
    (Z.of_nat (nrows amps) = n_ts -> Z.of_nat (length y) = n_ts + 1) /\
    (forall time : list float,
        Z.of_nat (nrows amps) = n_ts -> Z.of_nat (length time) = n_ts + 1 ->
        length y = length time) /\
    take (nrows amps) y = c /\
    y !! (nrows amps - 1)%nat = Some x /\
    y !! nrows amps = Some x /\
    y = (c ++ [x])%list.
Proof.
  destruct (norm_index (ncols amps) j) as [j'|] eqn:Hj;
    [|unfold column in Hcol; rewrite Hj in Hcol; discriminate Hcol].
  destruct (column_defined amps j j' Hwf Hj) as (c' & Hc' & Hlen & Hget).
  rewrite Hcol in Hc'. injection Hc' as <-.
  assert (is_Some (c !! (nrows amps - 1)%nat)) as [x Hx]
    by (apply lookup_lt_is_Some; lia).
  assert (item amps (-1) j = Some x) as Hitem.
  { unfold item. rewrite (norm_index_last _ Hrows), Hj. simpl.
    rewrite <- Hget by lia. exact Hx. }
  exists (c ++ [x])%list, x.
  assert (length (c ++ [x])%list = S (nrows amps)) as Hy
    by (rewrite length_app; simpl; lia).
  unfold hstack_column_last. rewrite Hcol, Hitem. simpl. unfold hstack.
  repeat split; try assumption.
  - lia.
  - intros time Hn Ht. lia.
  - apply take_app_length'. symmetry. exact Hlen.
  - rewrite lookup_app_l by lia. exact Hx.
  - apply list_lookup_middle. symmetry. exact Hlen.
Qed.

End Plotting.

(* ===================================================================== *)
(** ** The statements on the sample instances                             *)
(* ===================================================================== *)

(** With the Taylor polynomial for [expm], the target is the rotation the
    notebook's log shows: cos 1 on the diagonal, sin 1 off it. *)
Example sample_target :
  buf (qdata (@Sg Sample.library)) =
  [0.54030230586813977; 0; 0; 0.8414709848078965;
   0; 0.54030230586813977; -0.8414709848078965; 0;
   0; 0.8414709848078965; 0.54030230586813977; 0;
   -0.8414709848078965; 0; 0; 0.54030230586813977]%float.
Proof. vm_compute. reflexivity. Qed.

(** In the cooperative world the run completes, and each of the two step
    plots is drawn once, with [n_ts + 1] abscissae and ordinates. *)
Example sample_run_steps :
  (@run Sample.library Sample.cooperative 0%nat).1 = Ok tt /\
  map (fun '(ax, x, y) => (ax, length x, length y))
      (step_calls (st_log (@run Sample.library Sample.cooperative 0%nat).2))
  = [(2, 1001, 1001); (3, 1001, 1001)]%nat.
Proof. vm_compute. split; reflexivity. Qed.

Lemma all_matrices_square_of_dimension_4_witness :
  @calc_omega_contract Sample.library /\
  @expm_contract Sample.library /\
  qsquare (@Sg Sample.library) 4.
Proof.
  split; [exact sample_omega_square|].
  split; [exact sample_expm_square|].
  exact (proj1 (proj2 (proj2 (proj2 (proj2
    (@all_matrices_square_of_dimension_4 Sample.library
       sample_omega_square sample_expm_square)))))).
Defined.

Lemma Sg_is_expm_of_omega_Ag_witness :
  @calc_omega Sample.library 2 = Sample.omega 2 /\
  @Sg Sample.library
  = Sample.expm_taylor
      {| qdata := target_generator; qdims := [[4%nat]; [4%nat]] |}.
Proof.
  split; [reflexivity|].
  exact (proj1 (proj2 (proj2 (proj2 (proj2 (proj2
    (@Sg_is_expm_of_omega_Ag Sample.library eq_refl))))))).
Defined.


Lemma optimizer_error_propagates_witness :
  (@run Sample.library Sample.failing 0%nat).1
    = Raise (LibError "optimisation failed") /\
  st_kernel (@run Sample.library Sample.failing 0%nat).2 = fresh_kernel /\
  st_files (@run Sample.library Sample.failing 0%nat).2
  = ["ctrl_amps_initial_Symplectic_n_ts1000_ptypeZERO.txt"].
Proof.
  pose proof (@optimizer_error_propagates Sample.library Sample.failing
                0%nat 0%nat (@passed Sample.library)
                (LibError "optimisation failed")) as Hw.
  assert (optimizer_calls (st_log (@run Sample.library Sample.failing 0%nat).2)
          = [@passed Sample.library]) as Hcall
    by (vm_compute; reflexivity).
  assert (@respond Sample.failing _ (OptimizePulse (@passed Sample.library)) 0%nat
          = (Raise (LibError "optimisation failed"), 0%nat)) as Hraise
    by reflexivity.
  destruct (Hw Hcall Hraise) as (Hout & _ & Hkernel & _ & Hfiles & _).
  split_and!; [exact Hout | exact Hkernel | rewrite Hfiles; reflexivity].
Defined.

Lemma plot_column_index_in_bounds_witness :
  exists c, column (Sample.zeros 3 1) 0 = Some c /\ length c = 3%nat.
Proof.
  assert (wf (Sample.zeros 3 1)) as Hwf by reflexivity.
  assert (Z.of_nat (ncols (Sample.zeros 3 1)) = n_ctrls) as Hcols by reflexivity.
  assert (0 ∈ range n_ctrls) as Hj by (vm_compute; constructor).
  exact (proj2 (proj2 (proj2 (proj2 (proj2 (proj2
    (plot_column_index_in_bounds (Sample.zeros 3 1) 0 Hwf Hcols Hj))))))).
Defined.

Lemma step_sequence_appends_last_value_witness :
  exists y x,
    hstack_column_last (Sample.zeros 3 1) 0 = Some y /\
    length y = 4%nat /\ y !! 2%nat = Some x /\ y !! 3%nat = Some x.
Proof.
  assert (wf (Sample.zeros 3 1)) as Hwf by reflexivity.
  assert (nrows (Sample.zeros 3 1) <> 0%nat) as Hrows by (simpl; lia).
  assert (column (Sample.zeros 3 1) 0 = Some [0; 0; 0]%float) as Hcol
    by reflexivity.
  destruct (step_sequence_appends_last_value (Sample.zeros 3 1) 0 _
              Hwf Hrows Hcol)
    as (y & x & Hy & _ & Hlen & _ & _ & _ & Hpen & Hlast & _).
  exists y, x. repeat split; assumption.
Defined.

(* ===================================================================== *)
(** ** The cells one by one, from any kernel state                        *)
(* ===================================================================== *)

(** Cells can be run in any order and more than once, so each of them is
    described here on an arbitrary state of the kernel. *)

Ltac nb_simpl :=
  cbn [st_world st_log st_files st_kernel fst snd
       k_result k_fig1 k_ax1 k_ax2 set_result set_fig1 set_ax1 set_ax2].

Ltac nb_unfold :=
  cbv [cell_report cell_plot cell_versions cell_optimise optimize_pulse print
       mbind mret NB_bind NB_ret nb_bind nb_ret extern global assign index
       lift raise wrote];
  nb_simpl.

(** One call of a run that completes: the world cannot have raised. *)
Ltac nb_answer :=
  match goal with
  | |- context [respond ?c ?u] =>
      destruct (respond c u) as [[?|?] ?]; nb_simpl;
      [|let Hd := fresh in intros Hd; discriminate Hd]
  end.

(** One call in a world that never raises. *)
Ltac nb_granted Hnr :=
  match goal with
  | |- context [respond ?c ?u] =>
      let E := fresh "E" in
      destruct (Hnr _ c u) as (? & ? & E); rewrite E; nb_simpl
  end.

(** One call of a run that is bound to fail later: if the world raises
    here, [tac] closes the case. *)
Ltac nb_doomed tac :=
  match goal with
  | |- context [respond ?c ?u] =>
      let E := fresh "E" in
      destruct (respond c u) as [[?|?] ?] eqn:E; nb_simpl; [|solve [tac]]
  end.

Section StepFacts.

Lemma step_calls_snoc (log : list event) (ev : event) :
  step_call ev = None -> step_calls (log ++ [ev]) = step_calls log.
Proof.
  intros Hev. unfold step_calls. rewrite omap_app. simpl. rewrite Hev.
  apply app_nil_r.
Qed.

Lemma timedelta_returns (x y : float) : timedelta x = Ok y -> y = x.
Proof.
  unfold timedelta. destruct (PrimFloat.is_nan x); [discriminate|].
  destruct (PrimFloat.leb (-86399999913600) x && PrimFloat.ltb x 86400000000000);
    [|discriminate].
  intros [= ->]. reflexivity.
Qed.

Lemma norm_index_bounds (n : nat) (i : Z) :
  is_Some (norm_index n i) <-> (- Z.of_nat n <= i < Z.of_nat n)%Z.
Proof.
  unfold norm_index.
  destruct (0 <=? i)%Z eqn:E1, (i <? Z.of_nat n)%Z eqn:E2; simpl;
    try (destruct (- Z.of_nat n <=? i)%Z eqn:E3, (i <? 0)%Z eqn:E4; simpl);
    try apply Z.leb_le in E1; try apply Z.leb_gt in E1;
    try apply Z.ltb_lt in E2; try apply Z.ltb_ge in E2;
    try apply Z.leb_le in E3; try apply Z.leb_gt in E3;
    try apply Z.ltb_lt in E4; try apply Z.ltb_ge in E4;
    (split; [intros [k Hk]; try discriminate Hk; lia
            | intros Hb; try (eexists; reflexivity); lia]).
Qed.

(** The ordinates of a step plot exist for a well-formed array with a row
    and an index within its columns. *)
Lemma hstack_column_last_some (amps : ndarray) (j : Z) :
  wf amps -> nrows amps <> 0%nat ->
  (- Z.of_nat (ncols amps) <= j < Z.of_nat (ncols amps))%Z ->
  exists c x, column amps j = Some c /\ item amps (-1) j = Some x /\
    hstack_column_last amps j = Some (c ++ [x])%list /\
    length c = nrows amps /\ c !! (nrows amps - 1)%nat = Some x.
Proof.
  intros Hwf Hrows Hj.
  destruct (proj2 (norm_index_bounds _ _) Hj) as [j' Hj'].
  destruct (column_defined amps j j' Hwf Hj') as (c & Hc & Hlen & Hget).
  assert (is_Some (c !! (nrows amps - 1)%nat)) as [x Hx]
    by (apply lookup_lt_is_Some; lia).
  assert (item amps (-1) j = Some x) as Hitem.
  { unfold item. rewrite (norm_index_last _ Hrows), Hj'. simpl.
    rewrite <- Hget by lia. exact Hx. }
  exists c, x. unfold hstack_column_last. rewrite Hc, Hitem.
  repeat split; assumption.
Qed.

Lemma plottable_ordinates (amps : ndarray) :
  plottable amps -> exists y, hstack_column_last amps 0 = Some y.
Proof.
  intros (Hwf & Hrows & Hcols). change n_ctrls with 1 in Hcols.
  destruct (hstack_column_last_some amps 0 Hwf Hrows) as (c & x & _ & _ & Hy & _);
    [lia|].
  eexists. exact Hy.
Qed.

End StepFacts.

Section Cells.
Context {L : Library} {W : World}.

Lemma report_completes (s : state) :
  (cell_report s).1 = Ok tt ->
  exists r, k_result (st_kernel s) = Some r /\
    st_log (cell_report s).2 = (st_log s ++ report_calls r)%list /\
    st_kernel (cell_report s).2 = st_kernel s /\
    st_files (cell_report s).2 = st_files s.
Proof.
  destruct s as [u log files k]. nb_unfold.
  destruct (k_result k) as [r|] eqn:Hr; [|discriminate].
  nb_simpl. do 7 nb_answer.
  destruct (timedelta (cpo.wall_time r)) as [elapsed|e] eqn:Htd; nb_simpl;
    [|discriminate].
  apply timedelta_returns in Htd. subst elapsed.
  nb_answer.
  intros _. exists r. rewrite <- !app_assoc. repeat split.
Qed.

Lemma plot_completes (s : state) :
  (cell_plot s).1 = Ok tt ->
  exists r fig ax1 ax2 y1 y2,
    k_result (st_kernel s) = Some r /\
    hstack_column_last (cpo.initial_amps r) 0 = Some y1 /\
    hstack_column_last (cpo.final_amps r) 0 = Some y2 /\
    st_log (cell_plot s).2 = (st_log s ++ plot_calls r fig ax1 ax2 y1 y2)%list /\
    st_kernel (cell_plot s).2
      = {| k_result := Some r; k_fig1 := Some fig;
           k_ax1 := Some ax1; k_ax2 := Some ax2 |} /\
    st_files (cell_plot s).2 = st_files s.
Proof.
  destruct s as [u log files k]. nb_unfold.
  change (range n_ctrls) with [0]. cbv [for_]. nb_unfold.
  do 5 nb_answer.
  destruct (k_result k) as [r|] eqn:Hr; [|discriminate].
  nb_simpl.
  destruct (hstack_column_last (cpo.initial_amps r) 0) as [y1|] eqn:Hy1;
    [|discriminate].
  nb_simpl. do 5 nb_answer. rewrite Hr. nb_simpl.
  destruct (hstack_column_last (cpo.final_amps r) 0) as [y2|] eqn:Hy2;
    [|discriminate].
  nb_simpl. repeat nb_answer.
  intros _.
  match goal with
  | |- context [set_ax2 ?a2 (set_ax1 ?a1 (set_fig1 ?f k))] =>
      exists r, f, a1, a2, y1, y2
  end.
  rewrite <- !app_assoc. cbv [set_ax2 set_ax1 set_fig1]. nb_simpl. rewrite Hr.
  repeat split; assumption.
Qed.

Lemma report_runs (s : state) (r : cpo.OptimResult) :
  never_raises -> k_result (st_kernel s) = Some r -> reportable r ->
  (cell_report s).1 = Ok tt.
Proof.
  intros Hnr Hr Htd. destruct s as [u log files k]. nb_unfold.
  cbn in Hr. rewrite Hr. nb_simpl.
  do 7 nb_granted Hnr. rewrite Htd. nb_simpl.
  repeat nb_granted Hnr.
  repeat match goal with x : unit |- _ => destruct x end. reflexivity.
Qed.

Lemma plot_runs (s : state) (r : cpo.OptimResult) :
  never_raises -> k_result (st_kernel s) = Some r ->
  plottable (cpo.initial_amps r) -> plottable (cpo.final_amps r) ->
  (cell_plot s).1 = Ok tt.
Proof.
  intros Hnr Hr Hinit Hfinal. destruct s as [u log files k]. nb_unfold.
  change (range n_ctrls) with [0]. cbv [for_]. nb_unfold.
  destruct (plottable_ordinates _ Hinit) as [y1 Hy1].
  destruct (plottable_ordinates _ Hfinal) as [y2 Hy2].
  cbn in Hr.
  do 5 nb_granted Hnr. rewrite Hr, Hy1. nb_simpl.
  do 5 nb_granted Hnr. rewrite Hr, Hy2. nb_simpl.
  repeat nb_granted Hnr.
  repeat match goal with x : unit |- _ => destruct x end. reflexivity.
Qed.

End Cells.

Ltac world_raised Hnr :=
  match goal with
  | E : respond ?c ?u = (Raise _, _) |- _ =>
      let E' := fresh in
      destruct (Hnr _ c u) as (? & ? & E'); rewrite E in E'; discriminate E'
  end.

(** Closes a goal about a run that has stopped: the outcome is not [Ok],
    no step plot was logged, the kernel names are where they were, and a
    world that never raises cannot have stopped it. *)
Ltac nb_stopped :=
  split_and!; cbv [set_ax2 set_ax1 set_fig1]; nb_simpl;
  first
    [ let Hd := fresh in intros Hd; discriminate Hd
    | rewrite ?step_calls_snoc by reflexivity; reflexivity
    | reflexivity
    | assumption
    | let Hnr := fresh in intros Hnr; world_raised Hnr ].

Section CellProperties.
Context {L : Library} {W : World}.

(** X1.  Cell 9, run to completion from any kernel state: [result] was bound,
    the cell made the statistics report and then its seven prints, in this
    order and nothing else, and it changed neither a binding nor a file. *)
Theorem report_cell_calls (s : state) (Hdone : (cell_report s).1 = Ok tt) :
  exists r,
    k_result (st_kernel s) = Some r /\
    st_log (cell_report s).2 = (st_log s ++ report_calls r)%list /\
    st_kernel (cell_report s).2 = st_kernel s /\
    st_files (cell_report s).2 = st_files s.
Proof. exact (report_completes s Hdone). Qed.

(** X2.  Cell 9 run before cell 8: with [result] unbound it raises NameError
    on its first statement, having called nothing and changed nothing. *)
Theorem report_cell_needs_result (s : state)
    (Hunbound : k_result (st_kernel s) = None) :
  cell_report s = (Raise (NameError "result"), s).
Proof.
  destruct s as [u log files k]. cbn in Hunbound. nb_unfold.
  rewrite Hunbound. reflexivity.
Qed.

(** X3.  Cell 10, run to completion from any kernel state: its thirteen calls
    are the figure, the first axes with title and labels, one step plot of
    the initial amplitudes, the second axes with title and labels, one step
    plot of the final amplitudes, the layout and the display.  Both step
    plots take [result.time] as abscissae and column 0 followed by its last
    value as ordinates; [fig1], [ax1], [ax2] are bound to what the world
    returned, and [result] and the files are untouched. *)
Theorem plot_cell_calls (s : state) (Hdone : (cell_plot s).1 = Ok tt) :
  exists r fig ax1 ax2 y1 y2,
    k_result (st_kernel s) = Some r /\
    hstack_column_last (cpo.initial_amps r) 0 = Some y1 /\
    hstack_column_last (cpo.final_amps r) 0 = Some y2 /\
    st_log (cell_plot s).2 = (st_log s ++ plot_calls r fig ax1 ax2 y1 y2)%list /\
    step_calls (plot_calls r fig ax1 ax2 y1 y2)
      = [(ax1, cpo.time r, y1); (ax2, cpo.time r, y2)] /\
    st_kernel (cell_plot s).2
      = {| k_result := Some r; k_fig1 := Some fig;
           k_ax1 := Some ax1; k_ax2 := Some ax2 |} /\
    st_files (cell_plot s).2 = st_files s.
Proof.
  destruct (plot_completes s Hdone)
    as (r & fig & ax1 & ax2 & y1 & y2 & Hr & Hy1 & Hy2 & Hlog & Hk & Hf).
  exists r, fig, ax1, ax2, y1, y2. split_and!; try assumption. reflexivity.
Qed.

(** X4.  Cell 10 run before cell 8: it never completes.  Whatever the world
    answers, no step plot is drawn, the second axes are never bound and
    [result] stays unbound; when the world itself raises nothing, the cell
    stops at the first loop with NameError, after [fig1] and [ax1] have
    been created and bound. *)
Theorem plot_cell_needs_result (s : state)
    (Hunbound : k_result (st_kernel s) = None) :
  (cell_plot s).1 <> Ok tt /\
  step_calls (st_log (cell_plot s).2) = step_calls (st_log s) /\
  k_ax2 (st_kernel (cell_plot s).2) = k_ax2 (st_kernel s) /\
  k_result (st_kernel (cell_plot s).2) = None /\
  (never_raises ->
   (cell_plot s).1 = Raise (NameError "result") /\
   is_Some (k_fig1 (st_kernel (cell_plot s).2)) /\
   is_Some (k_ax1 (st_kernel (cell_plot s).2))).
Proof.
  destruct s as [u log files k]. cbn in Hunbound. nb_unfold.
  change (range n_ctrls) with [0]. cbv [for_]. nb_unfold.
  do 5 nb_doomed nb_stopped.
  rewrite Hunbound. nb_simpl.
  split_and!; cbv [set_ax2 set_ax1 set_fig1]; nb_simpl.
  - discriminate.
  - rewrite ?step_calls_snoc by reflexivity. reflexivity.
  - reflexivity.
  - assumption.
  - intros _. split_and!; [reflexivity | eexists; reflexivity ..].
Qed.

(** X5.  Cell 10 on a result without timeslots: [amps[-1, j]] has no last row
    to read, so the cell never completes and draws no step plot; when the
    world itself raises nothing, it stops with IndexError. *)
Theorem plot_cell_needs_a_row (s : state) (r : cpo.OptimResult)
    (Hresult : k_result (st_kernel s) = Some r)
    (Hempty : nrows (cpo.initial_amps r) = 0%nat) :
  (cell_plot s).1 <> Ok tt /\
  step_calls (st_log (cell_plot s).2) = step_calls (st_log s) /\
  k_ax2 (st_kernel (cell_plot s).2) = k_ax2 (st_kernel s) /\
  (never_raises -> (cell_plot s).1 = Raise IndexError).
Proof.
  destruct s as [u log files k]. cbn in Hresult. nb_unfold.
  change (range n_ctrls) with [0]. cbv [for_]. nb_unfold.
  do 5 nb_doomed nb_stopped.
  rewrite Hresult, (hstack_column_last_no_rows _ 0 Hempty). nb_simpl.
  split_and!; cbv [set_ax2 set_ax1 set_fig1]; nb_simpl.
  - discriminate.
  - rewrite ?step_calls_snoc by reflexivity. reflexivity.
  - reflexivity.
  - intros _. reflexivity.
Qed.

(** X6.  Cell 8 from any kernel state, as when it is run again: it makes
    exactly one call, the optimiser with the notebook's arguments, and never
    touches [fig1], [ax1], [ax2].  When the call returns, [result] is
    rebound to the new result and the reported files are added; when it
    raises, the exception is the cell's outcome, the kernel, with any
    earlier [result], stays as it was, and the only files added are those
    the optimiser had written before it raised. *)
Theorem optimise_cell_from_any_state (s : state) :
  st_log (cell_optimise s).2 = (st_log s ++ [Event (OptimizePulse passed)])%list /\
  k_fig1 (st_kernel (cell_optimise s).2) = k_fig1 (st_kernel s) /\
  k_ax1 (st_kernel (cell_optimise s).2) = k_ax1 (st_kernel s) /\
  k_ax2 (st_kernel (cell_optimise s).2) = k_ax2 (st_kernel s) /\
  match respond (OptimizePulse passed) (st_world s) with
  | (Ok reply, u') =>
      (cell_optimise s).1 = Ok tt /\
      k_result (st_kernel (cell_optimise s).2) = Some (cpo.reply_result reply) /\
      st_files (cell_optimise s).2 = (st_files s ++ cpo.reply_files reply)%list /\
      st_world (cell_optimise s).2 = u'
  | (Raise e, u') =>
      (cell_optimise s).1 = Raise e /\
      st_kernel (cell_optimise s).2 = st_kernel s /\
      st_files (cell_optimise s).2
      = (st_files s ++ written_before_raising passed (st_world s))%list /\
      st_world (cell_optimise s).2 = u'
  end.
Proof.
  destruct s as [u log files k]. nb_unfold. fold passed.
  destruct (respond (OptimizePulse passed) u) as [[reply|e] u']; nb_simpl;
    split_and!; reflexivity.
Qed.

End CellProperties.

(* ===================================================================== *)
(** ** The whole run                                                      *)
(* ===================================================================== *)

Section WholeRun.
Context {L : Library} {W : World}.

Lemma run_cells_three (c1 c2 c3 : NB unit) (s : state) :
  run_cells [c1; c2; c3] s =
  match c1 s with
  | (Ok _, s1) =>
      match c2 s1 with
      | (Ok _, s2) =>
          match c3 s2 with
          | (Ok _, s3) => (Ok tt, s3)
          | (Raise e, s3) => (Raise e, s3)
          end
      | (Raise e, s2) => (Raise e, s2)
      end
  | (Raise e, s1) => (Raise e, s1)
  end.
Proof.
  cbv [run_cells mbind mret NB_bind NB_ret nb_bind nb_ret].
  destruct (c1 s) as [[[]|e1] s1]; [|reflexivity].
  destruct (c2 s1) as [[[]|e2] s2]; [|reflexivity].
  destruct (c3 s2) as [[[]|e3] s3]; reflexivity.
Qed.

(** X7.  A run that completes made twenty-three calls: the optimiser, the eight
    of the report, the thirteen of the plot, and the version table, in this
    order and with the arguments the optimiser's result dictates.  It ends
    with [result], [fig1], [ax1] and [ax2] all bound. *)
Theorem completed_run_calls (w : world) (Hdone : (run w).1 = Ok tt) :
  exists reply fig ax1 ax2 y1 y2,
    hstack_column_last (cpo.initial_amps (cpo.reply_result reply)) 0 = Some y1 /\
    hstack_column_last (cpo.final_amps (cpo.reply_result reply)) 0 = Some y2 /\
    st_log (run w).2
      = (Event (OptimizePulse passed)
           :: report_calls (cpo.reply_result reply)
           ++ plot_calls (cpo.reply_result reply) fig ax1 ax2 y1 y2
           ++ [Event VersionTable])%list /\
    length (st_log (run w).2) = 23%nat /\
    st_kernel (run w).2
      = {| k_result := Some (cpo.reply_result reply); k_fig1 := Some fig;
           k_ax1 := Some ax1; k_ax2 := Some ax2 |}.
Proof.
  destruct (respond (OptimizePulse passed) w) as [[reply|e] w'] eqn:E;
    [|rewrite (run_raised _ _ _ E) in Hdone; discriminate Hdone].
  rewrite (run_returned _ _ _ E) in *. rewrite run_cells_three in *.
  match type of Hdone with context [cell_report ?s1] => set (s1' := s1) in * end.
  pose proof (report_completes s1') as Hrep.
  destruct (cell_report s1') as [[[]|e1] s2]; [|discriminate Hdone].
  destruct (Hrep eq_refl) as (r & Hr & Hlog2 & Hk2 & _). clear Hrep.
  injection Hr as <-.
  pose proof (plot_completes s2) as Hplot.
  destruct (cell_plot s2) as [[[]|e2] s3]; [|discriminate Hdone].
  destruct (Hplot eq_refl)
    as (r & fig & ax1 & ax2 & y1 & y2 & Hr & Hy1 & Hy2 & Hlog3 & Hk3 & _).
  clear Hplot. cbn [snd] in *.
  rewrite Hk2 in Hr. injection Hr as <-.
  exists reply, fig, ax1, ax2, y1, y2.
  cbv [cell_versions extern] in *.
  destruct (respond VersionTable (st_world s3)) as [[[]|e3] w3];
    [|discriminate Hdone].
  cbn [snd st_log st_kernel]. rewrite Hlog3, Hlog2, Hk3.
  split_and!; try assumption; reflexivity.
Qed.

(** X8.  The notebook runs to completion when no call to the outside
    raises and the optimiser answers the notebook's call with plottable
    amplitudes and with a wall time [datetime.timedelta] accepts: then
    neither NameError, nor IndexError, nor ValueError or OverflowError
    can arise in the cells themselves. *)
Theorem notebook_completes (w : world)
    (Hnr : never_raises) (Hplot : returns_plottable)
    (Hreport : returns_reportable) :
  (run w).1 = Ok tt.
Proof.
  destruct (Hnr _ (OptimizePulse passed) w) as (reply & w' & E).
  destruct (Hplot _ _ _ E) as [Hinit Hfinal].
  rewrite (run_returned _ _ _ E), run_cells_three.
  match goal with |- context [cell_report ?s1] => set (s1' := s1) end.
  pose proof (report_runs s1' _ Hnr eq_refl (Hreport _ _ _ E)) as Hrep.
  pose proof (report_completes s1') as Hrep'.
  destruct (cell_report s1') as [[[]|e1] s2]; [|discriminate Hrep].
  destruct (Hrep' eq_refl) as (r & Hr & _ & Hk2 & _). clear Hrep'.
  injection Hr as <-. cbn [snd] in Hk2.
  assert (k_result (st_kernel s2) = Some (cpo.reply_result reply)) as Hr2
    by (rewrite Hk2; reflexivity).
  pose proof (plot_runs s2 _ Hnr Hr2 Hinit Hfinal) as Hpl.
  destruct (cell_plot s2) as [[[]|e2] s3]; [|discriminate Hpl].
  cbv [cell_versions extern].
  destruct (Hnr _ VersionTable (st_world s3)) as ([] & w3 & ->).
  reflexivity.
Qed.

End WholeRun.

(* ===================================================================== *)
(** ** Indexing, array literals and the file extension                    *)
(* ===================================================================== *)

Section IndexingFacts.

Lemma range_elem (n j : Z) : j ∈ range n -> (0 <= j < n)%Z.
Proof.
  unfold range. intros Hj. apply list_elem_of_In, in_map_iff in Hj.
  destruct Hj as (i & <- & Hi). apply in_seq in Hi. lia.
Qed.




Lemma list_ascii_app (s t : string) :
  list_ascii_of_string (s ++ t)
  = (list_ascii_of_string s ++ list_ascii_of_string t)%list.
Proof.
  induction s as [|c s IH]; [reflexivity|].
  change (list_ascii_of_string (String c (s ++ t))
          = (c :: list_ascii_of_string s ++ list_ascii_of_string t)%list).
  simpl. rewrite IH. reflexivity.
Qed.

Lemma string_app_inv_tail (s1 s2 t : string) : s1 ++ t = s2 ++ t -> s1 = s2.
Proof.
  intros Heq. apply (f_equal list_ascii_of_string) in Heq.
  rewrite !list_ascii_app in Heq. apply app_inv_tail in Heq.
  rewrite <- (string_of_list_ascii_of_string s1),
          <- (string_of_list_ascii_of_string s2), Heq.
  reflexivity.
Qed.

Lemma string_app_inv_head (s t1 t2 : string) : s ++ t1 = s ++ t2 -> t1 = t2.
Proof.
  induction s as [|c s IH]; intros Heq; [exact Heq|].
  apply IH. change (String c (s ++ t1) = String c (s ++ t2)) in Heq.
  injection Heq as Heq. exact Heq.
Qed.

(** X10.  The ordinates of a step plot are defined exactly when the array has a
    row to take the last value from and the index is a column of it,
    counted from the front or from the back. *)
Theorem step_ordinates_defined_iff (amps : ndarray) (j : Z) (Hwf : wf amps) :
  is_Some (hstack_column_last amps j) <->
  nrows amps <> 0%nat /\
  (- Z.of_nat (ncols amps) <= j < Z.of_nat (ncols amps))%Z.
Proof.
  split.
  - intros [y Hy]. unfold hstack_column_last in Hy.
    destruct (column amps j) as [c|] eqn:Hc; [|discriminate Hy].
    destruct (item amps (-1) j) as [x|] eqn:Hx; [|discriminate Hy].
    unfold column in Hc. unfold item in Hx.
    destruct (norm_index (ncols amps) j) as [j'|] eqn:Hj; [|discriminate Hc].
    destruct (norm_index (nrows amps) (-1)) as [i'|] eqn:Hi; [|discriminate Hx].
    split.
    + assert (is_Some (norm_index (nrows amps) (-1))) as Hlast
        by (rewrite Hi; eexists; reflexivity).
      apply norm_index_bounds in Hlast. lia.
    + apply norm_index_bounds. rewrite Hj. eexists. reflexivity.
  - intros [Hrows Hj].
    destruct (hstack_column_last_some amps j Hwf Hrows Hj)
      as (c & x & _ & _ & Hy & _).
    eexists. exact Hy.
Qed.

(** X11.  The plotting loops stay in bounds for any number of controls: with [n]
    columns and at least one row, every [j] of [range(n)] indexes a column,
    and the ordinates are that column followed by its last entry, one more
    than the array has rows. *)
Theorem plot_loops_index_in_bounds (n : Z) (amps : ndarray) (j : Z)
    (Hwf : wf amps) (Hrows : nrows amps <> 0%nat)
    (Hcols : Z.of_nat (ncols amps) = n) (Hj : j ∈ range n) :
  (0 <= j < n)%Z /\
  exists c x,
    column amps j = Some c /\
    item amps (-1) j = Some x /\
    hstack_column_last amps j = Some (c ++ [x])%list /\
    length c = nrows amps /\
    c !! (nrows amps - 1)%nat = Some x.
Proof.
  pose proof (range_elem _ _ Hj) as Hb. split; [exact Hb|].
  apply hstack_column_last_some; [assumption..|lia].
Qed.


(** Binary64 holds the small integers exactly, those of the notebook's
    literals among them. *)
Lemma small_ints_held_exactly (z : Z) :
  (-1024 <= z <= 1024)%Z -> held_exactly (PyInt z) = true.
Proof.
  intros Hz.
  assert (forallb (fun k => held_exactly (PyInt (Z.of_nat k - 1024)))
                  (seq 0 2049) = true) as Hall by (vm_compute; reflexivity).
  pose proof (proj1 (forallb_forall _ _) Hall (Z.to_nat (z + 1024))) as Hk.
  cbv beta in Hk.
  replace (Z.of_nat (Z.to_nat (z + 1024)) - 1024)%Z with z in Hk by lia.
  apply Hk, in_seq. lia.
Qed.

End IndexingFacts.

Section Extension.
Context {L : Library}.

Lemma f_ext_of_value (name : string) (n : Z) (p : string) :
  f_ext_of name n p = name ++ "_n_ts" ++ pretty n ++ "_ptype" ++ p ++ ".txt".
Proof. unfold f_ext_of, format. rewrite f_ext_format_defined. reflexivity. Qed.

(** X13.  The extension tells apart any two values of one of its three
    arguments when the other two are the same, so two runs that differ in
    the number of timeslots, or in the pulse type, or in the example's
    name never share their output files.  It does not tell apart all
    triples: a pulse type that itself contains the separators can make two
    different configurations collide. *)
Theorem f_ext_of_injective_in_each_argument
    (name name' : string) (n n' : Z) (p p' : string) :
  (f_ext_of name n p = f_ext_of name n' p -> n = n') /\
  (f_ext_of name n p = f_ext_of name n p' -> p = p') /\
  (f_ext_of name n p = f_ext_of name' n p -> name = name') /\
  f_ext_of "x" 5 "A_n_ts7_ptypeB" = f_ext_of "x_n_ts5_ptypeA" 7 "B".
Proof.
  rewrite !f_ext_of_value. split_and!.
  - intros Heq.
    apply string_app_inv_head, string_app_inv_head, string_app_inv_tail in Heq.
    apply (inj pretty) in Heq. exact Heq.
  - intros Heq.
    do 4 apply string_app_inv_head in Heq.
    apply string_app_inv_tail in Heq. exact Heq.
  - intros Heq. apply string_app_inv_tail in Heq. exact Heq.
  - reflexivity.
Qed.

End Extension.

(* ===================================================================== *)
(** ** What reporting and plotting never do                               *)
(* ===================================================================== *)

Section ReadOnly.
Context {L : Library} {W : World}.

(** Closes a goal about the report cell stopped part-way. *)
Ltac report_stopped :=
  split_and!;
  [ reflexivity
  | reflexivity
  | eexists; split;
    [ rewrite <- ?app_assoc; reflexivity
    | let r' := fresh in let Hr' := fresh in
      intros r' Hr'; injection Hr' as <-; eexists; reflexivity ] ].

(** X14.  Cell 9 only reads.  From any kernel state and whatever the world
    answers, completed or not, it leaves every binding and the files as they
    were, and what it adds to the log is an initial part of its eight calls
    for the bound result: the calls never come out of order, and none is
    skipped before a later one is made. *)
Theorem report_cell_is_read_only (s : state) :
  st_kernel (cell_report s).2 = st_kernel s /\
  st_files (cell_report s).2 = st_files s /\
  exists made,
    st_log (cell_report s).2 = (st_log s ++ made)%list /\
    forall r, k_result (st_kernel s) = Some r -> made `prefix_of` report_calls r.
Proof.
  destruct s as [u log files k]. nb_unfold.
  destruct (k_result k) as [r|] eqn:Hr; nb_simpl.
  - do 7 nb_doomed report_stopped.
    destruct (timedelta (cpo.wall_time r)) as [elapsed|e] eqn:Htd; nb_simpl;
      [|report_stopped].
    apply timedelta_returns in Htd. subst elapsed.
    nb_doomed report_stopped.
    report_stopped.
  - split_and!; [reflexivity..|].
    exists []. split; [symmetry; apply app_nil_r | discriminate].
Qed.

(** X15.  Neither reporting, nor plotting, nor the version table ever calls the
    optimiser, adds a file or rebinds [result], from any kernel state and
    whatever the world answers; each only adds to the log. *)
Theorem later_cells_are_quiet :
  quiet cell_report /\ quiet cell_plot /\ quiet cell_versions.
Proof.
  split_and!; [apply quiet_report | apply quiet_plot | apply quiet_versions].
Qed.

End ReadOnly.

(* ===================================================================== *)
(** ** These properties on the sample instances                           *)
(* ===================================================================== *)

Lemma sample_never_raises : @never_raises Sample.cooperative.
Proof.
  intros R c u. destruct c; simpl; eexists; eexists; reflexivity.
Qed.

Lemma sample_returns_plottable : @returns_plottable Sample.library Sample.cooperative.
Proof.
  intros u reply u' E. simpl in E. injection E as <- _.
  split; (split_and!; [vm_compute; reflexivity | vm_compute; discriminate | reflexivity]).
Qed.

Lemma sample_returns_reportable :
  @returns_reportable Sample.library Sample.cooperative.
Proof.
  intros u reply u' E. simpl in E. injection E as <- _. reflexivity.
Qed.

Lemma report_cell_calls_witness :
  st_log (@cell_report Sample.library Sample.cooperative Sample.optimised).2
  = (st_log Sample.optimised
       ++ @report_calls Sample.library
            (Sample.result_for (@passed Sample.library) 0%nat))%list.
Proof.
  assert ((@cell_report Sample.library Sample.cooperative Sample.optimised).1
          = Ok tt) as Hdone by (vm_compute; reflexivity).
  destruct (@report_cell_calls Sample.library Sample.cooperative
              Sample.optimised Hdone) as (r & Hr & Hlog & _).
  vm_compute in Hr. injection Hr as <-. rewrite Hlog. vm_compute. reflexivity.
Defined.

Lemma report_cell_needs_result_witness :
  @cell_report Sample.library Sample.cooperative Sample.fresh
  = (Raise (NameError "result"), Sample.fresh).
Proof.
  apply (@report_cell_needs_result Sample.library Sample.cooperative Sample.fresh).
  reflexivity.
Defined.

Lemma plot_cell_calls_witness :
  exists time ax1 ax2 y1 y2,
    step_calls
      (st_log (@cell_plot Sample.cooperative Sample.optimised).2)
    = [(ax1, time, y1); (ax2, time, y2)].
Proof.
  assert ((@cell_plot Sample.cooperative Sample.optimised).1
          = Ok tt) as Hdone by (vm_compute; reflexivity).
  destruct (@plot_cell_calls Sample.cooperative
              Sample.optimised Hdone)
    as (r & fig & ax1 & ax2 & y1 & y2 & _ & _ & _ & Hlog & Hsteps & _).
  exists (cpo.time r), ax1, ax2, y1, y2.
  rewrite Hlog. unfold step_calls in *. rewrite omap_app, Hsteps. reflexivity.
Defined.

Lemma plot_cell_needs_result_witness :
  (@cell_plot Sample.cooperative Sample.fresh).1
  = Raise (NameError "result").
Proof.
  assert (k_result (st_kernel Sample.fresh) = None) as Hunbound by reflexivity.
  destruct (@plot_cell_needs_result Sample.cooperative
              Sample.fresh Hunbound) as (_ & _ & _ & _ & Hnr).
  exact (proj1 (Hnr sample_never_raises)).
Defined.

Lemma plot_cell_needs_a_row_witness :
  (@cell_plot Sample.cooperative Sample.degenerate).1
  = Raise IndexError.
Proof.
  assert (k_result (st_kernel Sample.degenerate) = Some Sample.no_slots)
    as Hresult by reflexivity.
  assert (nrows (cpo.initial_amps Sample.no_slots) = 0%nat) as Hempty
    by reflexivity.
  destruct (@plot_cell_needs_a_row Sample.cooperative
              Sample.degenerate Sample.no_slots Hresult Hempty)
    as (_ & _ & _ & Hnr).
  exact (Hnr sample_never_raises).
Defined.

Lemma completed_run_calls_witness :
  length (st_log (@run Sample.library Sample.cooperative 0%nat).2) = 23%nat.
Proof.
  assert ((@run Sample.library Sample.cooperative 0%nat).1 = Ok tt) as Hdone
    by (vm_compute; reflexivity).
  destruct (@completed_run_calls Sample.library Sample.cooperative 0%nat Hdone)
    as (reply & fig & ax1 & ax2 & y1 & y2 & _ & _ & _ & Hlen & _).
  exact Hlen.
Defined.

Lemma notebook_completes_witness :
  (@run Sample.library Sample.cooperative 0%nat).1 = Ok tt.
Proof.
  exact (@notebook_completes Sample.library Sample.cooperative 0%nat
           sample_never_raises sample_returns_plottable
           sample_returns_reportable).
Defined.

Lemma step_ordinates_defined_iff_witness :
  is_Some (hstack_column_last (Sample.zeros 3 1) (-1)) /\
  ~ is_Some (hstack_column_last (Sample.zeros 3 1) 1).
Proof.
  assert (wf (Sample.zeros 3 1)) as Hwf by reflexivity.
  split.
  - apply (step_ordinates_defined_iff (Sample.zeros 3 1) (-1) Hwf).
    simpl. lia.
  - intros Hsome.
    apply (step_ordinates_defined_iff (Sample.zeros 3 1) 1 Hwf) in Hsome.
    simpl in Hsome. lia.
Defined.

Lemma plot_loops_index_in_bounds_witness :
  exists c x,
    hstack_column_last (Sample.zeros 3 2) 1 = Some (c ++ [x])%list /\
    length c = 3%nat.
Proof.
  assert (wf (Sample.zeros 3 2)) as Hwf by reflexivity.
  assert (nrows (Sample.zeros 3 2) <> 0%nat) as Hrows by (simpl; lia).
  assert (Z.of_nat (ncols (Sample.zeros 3 2)) = 2) as Hcols by reflexivity.
  assert (1 ∈ range 2) as Hj by (vm_compute; do 2 constructor).
  destruct (plot_loops_index_in_bounds 2 (Sample.zeros 3 2) 1
              Hwf Hrows Hcols Hj) as (_ & c & x & _ & _ & Hy & Hlen & _).
  exists c, x. split; assumption.
Defined.

